(** * builder.py: a configuration-driven build/test runner

    A shallow embedding of [src/builder.py] and the properties of its
    variable substitution, configuration extraction, path matching, step
    planning, command execution and project selection.

    Modelling conventions.
    - A Python [str] is a [string]; its characters are the [ascii] cells of
      the string, so [len] is [String.length].
    - A Python [dict] with string keys and string values is an association
      list in insertion order with distinct keys; [for k in d: ... d[k]]
      is the traversal of its items.
    - The only objects the program mutates after creating them are the
      [variables] and [environment] dictionaries.  They live in a store of
      dictionaries indexed by object identity, so that two names bound to
      the same dictionary see each other's updates.
    - [print], [exit], [subprocess.call], [re], [os.path.expanduser],
      [os.getcwd] and [os.environ] are the platform: the first two become
      an output trace and an outcome, the others are the fields of
      [Platform]. *)

From Stdlib Require Import String Ascii ZArith DecimalString.
From stdpp Require Import base list strings.

Local Open Scope Z_scope.
#[local] Arguments String.append !s1 s2 : simpl nomatch.

(** ** Python strings *)

Module PyStr.

(** [s.replace(old, new)] for a non-empty [old]: scan from the left; where
    [old] starts, emit [new] and skip the rest of that occurrence ([skip]
    counts the characters of it still to drop), otherwise keep the
    character. *)
Fixpoint replace_from (old new : string) (skip : nat) (s : string) : string :=
  match s with
  | EmptyString => EmptyString
  | String c s' =>
      match skip with
      | S n => replace_from old new n s'
      | O =>
          if String.prefix old s
          then new +:+ replace_from old new (String.length old - 1) s'
          else String c (replace_from old new 0 s')
      end
  end.

(** [s.replace(old, new)] for the empty [old]: [new] goes before every
    character and at the end. *)
Fixpoint replace_empty (new s : string) : string :=
  match s with
  | EmptyString => new
  | String c s' => new +:+ String c (replace_empty new s')
  end.

(** [s.replace(old, new)] *)
Definition replace (s old new : string) : string :=
  match old with
  | EmptyString => replace_empty new s
  | String _ _ => replace_from old new 0 s
  end.

(** [old in s]: [old] starts at some position of [s]. *)
Fixpoint occurs (old s : string) : bool :=
  match s with
  | EmptyString => String.prefix old EmptyString
  | String _ s' => String.prefix old s || occurs old s'
  end.

(** [sep.join(parts)] *)
Definition join (sep : string) (parts : list string) : string :=
  String.concat sep parts.

(** [s[:n]] *)
Definition slice_to (n : nat) (s : string) : string :=
  String.substring 0 n s.

(** The characters of a string, as [for _ in text] visits them. *)
Definition chars (s : string) : list ascii := list_ascii_of_string s.

(** [str(n)] for an integer. *)
Definition of_int (n : Z) : string := NilZero.string_of_int (Z.to_int n).

End PyStr.

(** ** Python dictionaries *)

Abbreviation dict := (list (string * string)).

(** [d[k]] ([None] stands for [KeyError]) *)
Fixpoint dict_get (k : string) (d : dict) : option string :=
  match d with
  | [] => None
  | (k', v) :: d' => if String.eqb k k' then Some v else dict_get k d'
  end.

(** [d[k] = v]: an existing key keeps its position, a new key goes last. *)
Fixpoint dict_set (k v : string) (d : dict) : dict :=
  match d with
  | [] => [(k, v)]
  | (k', v') :: d' =>
      if String.eqb k k' then (k', v) :: d' else (k', v') :: dict_set k v d'
  end.

(** [{**a, **b}] *)
Definition dict_merge (a b : dict) : dict :=
  fold_left (fun acc kv => dict_set (fst kv) (snd kv) acc) b a.

(** ** Configuration values *)

(** A scalar of the configuration file, as [yaml.safe_load] returns it
    (floating-point scalars are left out). *)
Inductive scalar : Type :=
  | SStr (s : string)
  | SInt (n : Z)
  | SBool (b : bool)
  | SNone.

(** [str(x)] *)
Definition py_str (x : scalar) : string :=
  match x with
  | SStr s => s
  | SInt n => PyStr.of_int n
  | SBool true => "True"
  | SBool false => "False"
  | SNone => "None"
  end.

(** A mapping node of the configuration: the keys the program looks at, each
    of which may be absent.  [path] and the steps are strings, as the
    signature of [replace_with_variables] has them; the values of
    [variables] and [environment] are scalars, which the program passes
    through [str]. *)
Record node : Type := Node {
  n_path : option string;
  n_variables : option (list (string * scalar));
  n_environment : option (list (string * scalar));
  n_build : option (list string);
  n_test : option (list string)
}.

(** The root mapping: its own [variables] and [environment], and the
    [projects] mapping. *)
Record config : Type := Config {
  c_root : node;
  c_projects : option (list (string * node))
}.

(** Parsed command line ([args] of [main]). *)
Record arguments : Type := Args {
  a_no_build : bool;
  a_test : bool;
  a_variable : option (list string);
  a_operating_system : string;
  a_build_type : string
}.

(** ** Pure functions of the program *)

(** [banner] *)
Definition banner (text : string) : string :=
  let text :=
    if (110 <? String.length text)%nat then PyStr.slice_to 110 text else text in
  let sep := "########" +:+ PyStr.join EmptyString (map (fun _ => "#") (PyStr.chars text)) in
  "echo -e '\n" +:+ sep +:+ "\n### " +:+ text +:+ " ###\n" +:+ sep +:+ "\n'".

(** The one-character string holding a double quote. *)
Definition dquote : string := String "034"%char EmptyString.

(** [get_system_name] *)
Definition get_system_name : string := "fedora".

(** ['{' + v + '}'] *)
Definition placeholder (v : string) : string := "{" +:+ v +:+ "}".

(** One [for v in d: value = str(value).replace('{' + v + '}', d[v])]
    loop. *)
Definition replace_each (d : dict) (value : string) : string :=
  fold_left (fun value kv => PyStr.replace value (placeholder (fst kv)) (snd kv))
            d value.

(** [replace_with_variables] *)
Definition replace_with_variables (value : string) (variables user_variables : dict)
  : string :=
  replace_each variables (replace_each user_variables value).


(** ** Building the user variables (lines 134-138 of [main]) *)

(** [v.split('=', 1)]: the text before the first ['='] and, when there is
    one, the text after it. *)
Fixpoint split_eq (v : string) : string * option string :=
  match v with
  | EmptyString => (EmptyString, None)
  | String c v' =>
      if Ascii.eqb c "=" then (EmptyString, Some v')
      else let (s0, s1) := split_eq v' in (String c s0, s1)
  end.

(** Whitespace in the sense of [str.isspace], for the characters that have
    a cell: tab to carriage return, the four separators, the blank,
    next-line and the no-break space. *)
Definition is_space (c : ascii) : bool :=
  let n := nat_of_ascii c in
  ((9 <=? n) && (n <=? 13) || (28 <=? n) && (n <=? 32)
   || (n =? 133) || (n =? 160))%nat.

Fixpoint lstrip (s : string) : string :=
  match s with
  | EmptyString => EmptyString
  | String c s' => if is_space c then lstrip s' else s
  end.

Fixpoint rstrip (s : string) : string :=
  match s with
  | EmptyString => EmptyString
  | String c s' =>
      match rstrip s' with
      | EmptyString => if is_space c then EmptyString else String c EmptyString
      | r => String c r
      end
  end.

(** [s.strip()] *)
Definition strip (s : string) : string := rstrip (lstrip s).

(** The loop that fills [user_variables]; [None] is the [IndexError] of
    [s[1]] on an argument without ['=']. *)
Fixpoint user_variables_of (vs : list string) (user_variables : dict) : option dict :=
  match vs with
  | [] => Some user_variables
  | v :: vs' =>
      match split_eq v with
      | (s0, Some s1) => user_variables_of vs' (dict_set s0 (strip s1) user_variables)
      | (_, None) => None
      end
  end.

(** ** The platform *)

(** What [regex.match(os.getcwd())] gives for the compiled pattern:
    [re.compile] raising, no match, or [match.group()]. *)
Inductive re_result : Type :=
  | ReError
  | ReNoMatch
  | ReMatch (group : string).

Class Platform : Type := {
  (** the state of the world child processes act on *)
  World : Type;
  (** [subprocess.call(cmd, env=env, cwd=cwd, shell=True)] *)
  subprocess_call : string -> string -> dict -> World -> Z * World;
  (** [re.compile(pattern).match(subject)] *)
  re_match : string -> string -> re_result;
  (** [os.path.expanduser] *)
  expanduser : string -> string;
  (** [os.getcwd()] *)
  getcwd : string;
  (** [os.environ] *)
  environ : dict;
  (** [str(root)] for a mapping node *)
  str_node : node -> string
}.

(** ** State, output and outcomes *)

Inductive event : Type :=
  | Stdout (text : string)
  | Stderr (text : string)
  | Call (cmd cwd : string) (env : dict).

(** How a computation ends: with a value, with [exit(code)], or with an
    exception nobody catches. *)
Inductive outcome (A : Type) : Type :=
  | Ret (a : A)
  | Exit (code : Z)
  | Raise (exn : string).
Arguments Ret {A} a.
Arguments Exit {A} code.
Arguments Raise {A} exn.

(** Identity of a dictionary object. *)
Abbreviation loc := nat.

Section Program.
Context {platform : Platform}.

Record state : Type := State {
  heap : list dict;
  output : list event;
  world : World
}.

Definition M (A : Type) : Type := state -> outcome A * state.

Definition ret {A} (a : A) : M A := fun st => (Ret a, st).

Definition bind {A B} (m : M A) (k : A -> M B) : M B :=
  fun st =>
    match m st with
    | (Ret a, st') => k a st'
    | (Exit code, st') => (Exit code, st')
    | (Raise exn, st') => (Raise exn, st')
    end.

Notation "x <- m ;; k" := (bind m (fun x => k))
  (at level 100, m at next level, right associativity).
Notation "m ;; k" := (bind m (fun _ => k))
  (at level 100, right associativity).

Definition raise {A} (exn : string) : M A := fun st => (Raise exn, st).

Definition emit (e : event) : M unit :=
  fun st => (Ret tt, State (heap st) (output st ++ [e]) (world st)).

(** [{}] or a dictionary literal: a new object. *)
Definition new_dict (d : dict) : M loc :=
  fun st => (Ret (length (heap st)), State (heap st ++ [d]) (output st) (world st)).

(** The dictionary an object currently holds (an identity that was never
    allocated, which the program never uses, reads as the empty
    dictionary). *)
Definition deref (l : loc) (st : state) : dict := default [] (heap st !! l).

Definition load (l : loc) : M dict := fun st => (Ret (deref l st), st).

Definition store (l : loc) (d : dict) : M unit :=
  fun st => (Ret tt, State (<[l := d]> (heap st)) (output st) (world st)).

(** [for x in xs: body(x)] *)
Fixpoint for_each {A} (xs : list A) (body : A -> M unit) : M unit :=
  match xs with
  | [] => ret tt
  | x :: xs' => body x ;; for_each xs' body
  end.

(** [print(text)] *)
Definition print (text : string) : M unit := emit (Stdout text).

(** [error] *)
Definition error {A} (text : string) : M A :=
  fun st => (Exit 1, State (heap st) (output st ++ [Stderr ("ERROR: " +:+ text)]) (world st)).

(** [extract_variables] *)
Definition extract_variables (root : node) (variables : loc) (user_variables : dict)
  : M loc :=
  match n_variables root with
  | Some decls =>
      for_each decls (fun '(var, x) =>
        d <- load variables ;;
        store variables
          (dict_set var (replace_with_variables (py_str x) d user_variables) d)) ;;
      ret variables
  | None => ret variables
  end.

(** [extract_environment] *)
Definition extract_environment (root : node) (environment variables : loc)
    (user_variables : dict) : M loc :=
  match n_environment root with
  | Some decls =>
      for_each decls (fun '(var, x) =>
        d <- load variables ;;
        e <- load environment ;;
        store environment
          (dict_set var (replace_with_variables (py_str x) d user_variables) e)) ;;
      ret environment
  | None => ret environment
  end.

(** [get_path] *)
Definition get_path (root : node) (variables : loc) (user_variables : dict)
  : M (option string) :=
  match n_path root with
  | Some p =>
      d <- load variables ;;
      let path := expanduser (replace_with_variables p d user_variables) in
      match re_match path getcwd with
      | ReError => raise "re.error"
      | ReMatch group => ret (Some group)
      | ReNoMatch => ret None
      end
  | None => error ("No path in " +:+ str_node root)
  end.

(** [get_build_steps] *)
Definition get_build_steps (root : node) : list string :=
  match n_build root with
  | Some xs => fold_left (fun steps x => steps ++ [x]) xs []
  | None => []
  end.

(** [get_test_steps] *)
Definition get_test_steps (root : node) : list string :=
  match n_test root with
  | Some xs => fold_left (fun steps x => steps ++ [x]) xs []
  | None => []
  end.

(** [subprocess.call(cmd, env=env, cwd=cwd, shell=True)]: the child runs in
    the world and its exit code comes back.  A shell that cannot be
    started at all, for which [subprocess.call] raises, is not modelled. *)
Definition call (cmd cwd : string) (env : dict) : M Z :=
  fun st =>
    let (rc, w) := subprocess_call cmd cwd env (world st) in
    (Ret rc, State (heap st) (output st ++ [Call cmd cwd env]) w).

(** [execute_command] *)
Definition execute_command (cmd cwd : string) (environment : loc) : M unit :=
  print cmd ;;
  e <- load environment ;;
  let env := dict_merge environ e in
  retcode <- call cmd cwd env ;;
  if negb (retcode =? 0) then error ("Execution of " +:+ dquote +:+ cmd +:+ dquote +:+ " failed.")
  else ret tt.

(** The loop of [build] and [test] over the steps, which fills [cmd]. *)
Fixpoint assemble (steps : list string) (variables : loc) (user_variables : dict)
    (cmd : list string) : M (list string) :=
  match steps with
  | [] => ret cmd
  | step :: steps' =>
      d <- load variables ;;
      let step := replace_with_variables step d user_variables in
      let cmd := if (0 <? length cmd)%nat then cmd ++ ["&&"] else cmd in
      let cmd := cmd ++ [banner step] in
      let cmd := cmd ++ ["&&"] in
      let cmd := cmd ++ [step] in
      assemble steps' variables user_variables cmd
  end.

(** [build] *)
Definition build (proj_root : node) (path : string) (variables environment : loc)
    (user_variables : dict) : M unit :=
  match n_build proj_root with
  | None => ret tt
  | Some steps =>
      variables <- extract_variables proj_root variables user_variables ;;
      environment <- extract_environment proj_root environment variables user_variables ;;
      cmd <- assemble steps variables user_variables [] ;;
      execute_command (PyStr.join " " cmd) path environment
  end.

(** [test] *)
Definition test (proj_root : node) (path : string) (variables environment : loc)
    (user_variables : dict) : M unit :=
  match n_test proj_root with
  | None => ret tt
  | Some steps =>
      variables <- extract_variables proj_root variables user_variables ;;
      environment <- extract_environment proj_root environment variables user_variables ;;
      cmd <- assemble steps variables user_variables [] ;;
      execute_command (PyStr.join " " cmd) path environment
  end.

(** Truth value of the result of [get_path]: [None] and the empty string
    are false. *)
Definition truthy (path : option string) : bool :=
  match path with
  | None => false
  | Some EmptyString => false
  | Some (String _ _) => true
  end.

(** What [main] does with the project whose path matched (lines 161-168). *)
Definition handle (args : arguments) (project : node) (path : string)
    (project_vars environment : loc) (user_variables : dict) : M unit :=
  (if negb (a_no_build args)
   then build project path project_vars environment user_variables
   else ret tt) ;;
  (if a_test args
   then test project path project_vars environment user_variables
   else ret tt) ;;
  ret tt.

(** The loop of [main] over the projects and the [error] call after it. *)
Fixpoint run_projects (args : arguments) (projects : list (string * node))
    (variables environment : loc) (user_variables : dict) : M unit :=
  match projects with
  | [] => error "No matching configuration entry found."
  | (p, project) :: rest =>
      project_vars <- extract_variables project variables user_variables ;;
      path <- get_path project project_vars user_variables ;;
      match path with
      | Some path' =>
          if truthy path
          then handle args project path' project_vars environment user_variables
          else run_projects args rest variables environment user_variables
      | None => run_projects args rest variables environment user_variables
      end
  end.

(** [main], from the parsed arguments and the loaded configuration. *)
Definition main (args : arguments) (config : config) : M unit :=
  user_variables <-
    match a_variable args with
    | Some (v :: vs) =>
        match user_variables_of (v :: vs) [] with
        | Some d => ret d
        | None => raise "IndexError"
        end
    | _ => ret []
    end ;;
  variables <- new_dict [] ;;
  (d <- load variables ;; store variables (dict_set "os" (a_operating_system args) d)) ;;
  (d <- load variables ;; store variables (dict_set "bt" (a_build_type args) d)) ;;
  variables <- extract_variables (c_root config) variables user_variables ;;
  fresh <- new_dict [] ;;
  environment <- extract_environment (c_root config) fresh variables user_variables ;;
  match c_projects config with
  | Some projects => run_projects args projects variables environment user_variables
  | None => raise "KeyError"
  end.

(** The state a run starts from. *)
Definition initial (w : World) : state := State [] [] w.

End Program.

(** ** A concrete platform for running examples *)

(** A matcher for patterns without regular-expression metacharacters, on
    which [re] matches exactly when the pattern is a prefix of the
    subject. *)
Definition literal_match (pattern subject : string) : re_result :=
  if String.prefix pattern subject then ReMatch pattern else ReNoMatch.

(** The world is the list of exit codes the next child processes will
    return (zero once it is used up). *)
Definition scripted (cwd : string) : Platform := {|
  World := list Z;
  subprocess_call := fun _ _ _ w =>
    match w with
    | [] => (0, [])
    | rc :: w' => (rc, w')
    end;
  re_match := literal_match;
  expanduser := fun p => p;
  getcwd := cwd;
  environ := [("HOME", "/home/user")];
  str_node := fun _ => "{...}"
|}.


(** ** Definitions used to state the properties *)

(** A line of [n] hash signs. *)
Fixpoint hashes (n : nat) : string :=
  match n with
  | O => EmptyString
  | S n' => String "#" (hashes n')
  end.

(** The first [n] characters of a string (all of it when it is shorter). *)
Definition first_chars (n : nat) (s : string) : string :=
  string_of_list_ascii (take n (list_ascii_of_string s)).

(** The argument of the banner's [echo -e], in which the two characters
    backslash and n stand for a line break: an empty line, the line of hash
    signs, the title line, the line of hash signs again, an empty line. *)
Definition banner_text (title : string) : string :=
  let t := first_chars 110 title in
  let sep := hashes (8 + String.length t) in
  PyStr.join "\n" [EmptyString; sep; "### " +:+ t +:+ " ###"; sep; EmptyString].

(** A text without an opening brace, in which no placeholder can start. *)
Definition plain (s : string) : bool :=
  forallb (fun c => negb (Ascii.eqb c "{")) (list_ascii_of_string s).

(** *** Templates

    A template read as its pieces: stretches of text without an opening
    brace and placeholders whose names hold no brace. *)
Inductive piece : Type :=
  | Text (s : string)
  | Hole (k : string).

Definition render_piece (p : piece) : string :=
  match p with
  | Text s => s
  | Hole k => placeholder k
  end.

(** The string a list of pieces stands for. *)
Fixpoint render (t : list piece) : string :=
  match t with
  | [] => EmptyString
  | p :: t' => render_piece p +:+ render t'
  end.

(** A name without braces. *)
Definition clean (k : string) : bool :=
  forallb (fun c => negb (Ascii.eqb c "{") && negb (Ascii.eqb c "}"))
          (list_ascii_of_string k).

Definition well_formed (t : list piece) : bool :=
  forallb (fun p => match p with Text s => plain s | Hole k => clean k end) t.

(** A placeholder of [k] gives way to the pieces of the value; every other
    piece stays. *)
Definition fill (k : string) (value : list piece) (p : piece) : list piece :=
  match p with
  | Hole k' => if String.eqb k' k then value else [p]
  | Text _ => [p]
  end.

(** One entry applied to a template: every placeholder of its name is
    filled, and the pieces that come in are not looked at again. *)
Definition substitute (t : list piece) (e : string * list piece) : list piece :=
  flat_map (fill (fst e) (snd e)) t.

(** The dictionary whose values are the rendered templates. *)
Definition rendered (es : list (string * list piece)) : dict :=
  map (fun e => (fst e, render (snd e))) es.

(** Entries with names without braces and well-formed values. *)
Definition entries_ok (es : list (string * list piece)) : bool :=
  forallb (fun e => clean (fst e) && well_formed (snd e)) es.

(** The template holds a placeholder of [k]. *)
Definition mentions (k : string) (t : list piece) : bool :=
  existsb (fun p => match p with Hole k' => String.eqb k' k | Text _ => false end) t.

(** Whitespace only. *)
Definition all_space (s : string) : bool :=
  forallb is_space (list_ascii_of_string s).

(** The first, and the last, character is whitespace. *)
Definition first_is_space (s : string) : bool :=
  match s with
  | EmptyString => false
  | String c _ => is_space c
  end.

Fixpoint last_is_space (s : string) : bool :=
  match s with
  | EmptyString => false
  | String c EmptyString => is_space c
  | String _ s' => last_is_space s'
  end.

Section Statements.
Context {platform : Platform}.

(** The dictionary that the loop of [extract_variables] builds from [d]:
    each declaration is resolved against the dictionary as built so far. *)
Definition extracted_variables (decls : list (string * scalar)) (d user : dict) : dict :=
  fold_left
    (fun d kx => dict_set (fst kx) (replace_with_variables (py_str (snd kx)) d user) d)
    decls d.

(** The dictionary that the loop of [extract_environment] builds from [e],
    resolving against the variables [d]. *)
Definition extracted_environment (decls : list (string * scalar)) (e d user : dict)
  : dict :=
  fold_left
    (fun e kx => dict_set (fst kx) (replace_with_variables (py_str (snd kx)) d user) e)
    decls e.

(** The state in which object [l] holds [d] and nothing else differs. *)
Definition with_dict (l : loc) (d : dict) (st : state) : state :=
  State (<[l := d]> (heap st)) (output st) (world st).

(** The words of the command line that the loop over the steps builds. *)
Fixpoint pipeline (steps : list string) (d user : dict) (cmd : list string)
  : list string :=
  match steps with
  | [] => cmd
  | step :: steps' =>
      let step := replace_with_variables step d user in
      pipeline steps' d user
        ((if (0 <? length cmd)%nat then cmd ++ ["&&"] else cmd)
           ++ [banner step] ++ ["&&"] ++ [step])
  end.

(** The state in which [build] and [test] run their command: the project's
    variables and environment have been extracted once more. *)
Definition prepared (project : node) (variables environment : loc) (user : dict)
    (st : state) : state :=
  snd (extract_environment project environment variables user
         (snd (extract_variables project variables user st))).

(** What a failed command leaves behind: the command echoed, the child
    run, the error message. *)
Definition failed (cmd cwd : string) (environment : loc) (st : state) : state :=
  let env := dict_merge environ (deref environment st) in
  State (heap st)
        (output st ++ [Stdout cmd; Call cmd cwd env;
                       Stderr ("ERROR: Execution of " +:+ dquote +:+ cmd +:+ dquote
                               +:+ " failed.")])
        (snd (subprocess_call cmd cwd env (world st))).

(** One round of the loop of [main] up to its test: the project's variables
    are extracted and its path is matched. *)
Definition examine (project : node) (variables : loc) (user : dict)
  : M (option string) :=
  bind (extract_variables project variables user)
       (fun project_vars => get_path project project_vars user).

(** Every project of the list is examined and none is selected: each has a
    path whose match is [None] or the empty string. *)
Inductive rejected (variables : loc) (user : dict)
  : list (string * node) -> state -> state -> Prop :=
  | rejected_nil st : rejected variables user [] st st
  | rejected_cons p project rest st path st1 st2 :
      examine project variables user st = (Ret path, st1) ->
      truthy path = false ->
      rejected variables user rest st1 st2 ->
      rejected variables user ((p, project) :: rest) st st2.

End Statements.

(** A pattern without regular-expression metacharacters. *)
Definition metachar (c : ascii) : bool :=
  existsb (Ascii.eqb c) (list_ascii_of_string ".^$*+?{}[]\|()").

Definition is_literal (pattern : string) : bool :=
  forallb (fun c => negb (metachar c)) (list_ascii_of_string pattern).

(** The command lines handed to the shell, in order. *)
Definition commands (out : list event) : list string :=
  flat_map (fun e => match e with Call cmd _ _ => [cmd] | _ => [] end) out.

(** ** Example configurations *)

Module Demo.

(** Build and then test, no user variables. *)
Definition args : arguments := Args false true None "fedora" "Release".

(** A project elsewhere on the disk, which declares a variable. *)
Definition elsewhere : node :=
  Node (Some "/nomatch") (Some [("leak", SStr "L")]) None (Some ["x"]) None.

(** Two projects whose pattern is /x. *)
Definition first : node :=
  Node (Some "/x") None None (Some ["make"]) (Some ["ctest"]).

Definition second : node :=
  Node (Some "/x") None None (Some ["never"]) None.

(** A project that uses a variable it does not declare. *)
Definition borrower : node :=
  Node (Some "/x") None None (Some ["echo {leak}"]) None.

(** A project whose pattern is the empty string, which matches the empty
    prefix of every directory. *)
Definition anywhere : node :=
  Node (Some EmptyString) None None (Some ["never"]) None.

(** A node with declarations that refer to each other. *)
Definition declaring : node :=
  Node None (Some [("a", SInt 1); ("b", SStr "{a}2")]) (Some [("E", SStr "{b}")])
       None None.

(** The state of a run in /x, or in another directory, once [main] has set
    up its two dictionaries from a configuration without global
    declarations: the variables are object 0 and the environment is
    object 1. *)
Definition start (cwd : string) (w : list Z) : @state (scripted cwd) :=
  @State (scripted cwd) [[("os", "fedora"); ("bt", "Release")]; []] [] w.

End Demo.

(** ** Definitions used to state further properties *)

(** The words that [build] and [test] chain: for each step, its banner and
    the step, both with the variables substituted. *)
Definition resolved_steps (steps : list string) (d user : dict) : list string :=
  flat_map
    (fun step =>
       let s := replace_with_variables step d user in [banner s; s])
    steps.

(** The text holds an equals sign. *)
Definition has_eq (s : string) : bool :=
  existsb (Ascii.eqb "=") (list_ascii_of_string s).

(** The user variables of a command line, as lines 134-138 of [main] build
    them; [None] when an argument has no equals sign. *)
Definition parsed_user_variables (args : arguments) : option dict :=
  match a_variable args with
  | Some (v :: vs) => user_variables_of (v :: vs) []
  | _ => Some []
  end.

(** The loop of [extract_variables] on templates taken as they are. *)
Definition declared_verbatim (decls : list (string * scalar)) (d : dict) : dict :=
  fold_left (fun d kx => dict_set (fst kx) (py_str (snd kx)) d) decls d.

Section FurtherStatements.
Context {platform : Platform}.

(** What a command that returned leaves behind: the command echoed and the
    child run. *)
Definition succeeded (cmd cwd : string) (environment : loc) (st : state) : state :=
  let env := dict_merge environ (deref environment st) in
  State (heap st)
        (output st ++ [Stdout cmd; Call cmd cwd env])
        (snd (subprocess_call cmd cwd env (world st))).

(** The variables [main] has computed when it enters the loop over the
    projects: os and bt, then the global declarations. *)
Definition global_variables (args : arguments) (config : config) (user : dict)
  : dict :=
  let base := [("os", a_operating_system args); ("bt", a_build_type args)] in
  match n_variables (c_root config) with
  | Some decls => extracted_variables decls base user
  | None => base
  end.

(** The environment [main] has computed when it enters the loop. *)
Definition global_environment (args : arguments) (config : config) (user : dict)
  : dict :=
  match n_environment (c_root config) with
  | Some decls =>
      extracted_environment decls [] (global_variables args config user) user
  | None => []
  end.



End FurtherStatements.

(** A platform like [scripted] whose [re] refuses every pattern that holds
    a metacharacter, as [re.compile] refuses an unbalanced parenthesis. *)
Definition literal_only (cwd : string) : Platform := {|
  World := list Z;
  subprocess_call := fun _ _ _ w =>
    match w with
    | [] => (0, [])
    | rc :: w' => (rc, w')
    end;
  re_match := fun pattern subject =>
    if is_literal pattern then literal_match pattern subject else ReError;
  expanduser := fun p => p;
  getcwd := cwd;
  environ := [("HOME", "/home/user")];
  str_node := fun _ => "{...}"
|}.

(** ** Strings: replacement and occurrence *)

Module PyStrFacts.
Import PyStr.

Lemma append_empty_r (s : string) : s +:+ EmptyString = s.
Proof. induction s as [|c s IH]; simpl; [reflexivity | now rewrite IH]. Qed.

Lemma append_assoc (a b c : string) : (a +:+ b) +:+ c = a +:+ (b +:+ c).
Proof. induction a as [|x a IH]; simpl; [reflexivity | now rewrite IH]. Qed.

Lemma prefix_refl (s : string) : String.prefix s s = true.
Proof.
  induction s as [|c s IH]; simpl; [reflexivity |].
  destruct (ascii_dec c c) as [_|Hne]; [exact IH | now destruct Hne].
Qed.

Lemma replace_from_skipped (old new : string) (s : string) :
  forall n, (String.length s <= n)%nat -> replace_from old new n s = EmptyString.
Proof.
  induction s as [|c s IH]; intros n Hn; simpl in *; [reflexivity |].
  destruct n as [|n]; [lia |]. apply IH. lia.
Qed.

(** Replacing [old] in the string [old] itself gives [new], whatever [new]
    contains: the inserted text is not scanned. *)
Lemma replace_self (c : ascii) (old new : string) :
  replace (String c old) (String c old) new = new.
Proof.
  unfold replace. cbn [replace_from].
  rewrite prefix_refl.
  rewrite replace_from_skipped by (simpl; lia).
  apply append_empty_r.
Qed.

Lemma replace_from_absent (old new : string) (s : string) :
  occurs old s = false -> replace_from old new 0 s = s.
Proof.
  induction s as [|c s IH]; intros H; [reflexivity |].
  cbn [occurs] in H. apply orb_false_iff in H as [Hp Ho].
  cbn [replace_from]. rewrite Hp. now rewrite IH.
Qed.

(** Where [old] does not occur, [replace] changes nothing. *)
Lemma replace_absent (s old new : string) :
  occurs old s = false -> replace s old new = s.
Proof.
  intros H. destruct old as [|c old].
  - destruct s; simpl in H; discriminate.
  - now apply replace_from_absent.
Qed.

Lemma occurs_self (s : string) : occurs s s = true.
Proof.
  destruct s as [|c s]; [reflexivity |].
  cbn [occurs]. now rewrite prefix_refl.
Qed.

End PyStrFacts.

(** ** Substitution *)

Lemma replace_each_app (d1 d2 : dict) (value : string) :
  replace_each (d1 ++ d2) value = replace_each d2 (replace_each d1 value).
Proof. unfold replace_each. apply fold_left_app. Qed.

(** A pass over variables none of whose placeholders occurs in the text
    leaves the text as it is. *)
Lemma replace_each_absent (d : dict) (value : string) :
  (forall kv, In kv d -> PyStr.occurs (placeholder (fst kv)) value = false) ->
  replace_each d value = value.
Proof.
  induction d as [|kv d IH]; intros H; [reflexivity |].
  unfold replace_each in *. cbn [fold_left].
  rewrite PyStrFacts.replace_absent by (apply H; now left).
  apply IH. intros kv' Hin. apply H. now right.
Qed.

(** A text without an opening brace holds no placeholder. *)
Lemma placeholder_absent (k s : string) :
  plain s = true -> PyStr.occurs (placeholder k) s = false.
Proof.
  unfold placeholder, plain.
  induction s as [|c s IH]; intros H; [reflexivity |].
  cbn [list_ascii_of_string forallb] in H.
  apply andb_true_iff in H as [Hc Hs].
  cbn [PyStr.occurs]. rewrite (IH Hs), orb_false_r.
  cbn [String.append String.prefix].
  destruct (ascii_dec "{" c) as [<- | _]; [discriminate Hc | reflexivity].
Qed.

(** Substitution is the identity on a text without an opening brace. *)
Lemma replace_with_variables_plain (s : string) (variables user : dict) :
  plain s = true -> replace_with_variables s variables user = s.
Proof.
  intros H. unfold replace_with_variables.
  rewrite (replace_each_absent user)
    by (intros kv _; now apply placeholder_absent).
  apply replace_each_absent. intros kv _. now apply placeholder_absent.
Qed.

Lemma prefix_app (old s : string) : String.prefix old (old +:+ s) = true.
Proof.
  induction old as [|c old IH]; [destruct s; reflexivity |].
  cbn [String.append String.prefix].
  destruct (ascii_dec c c) as [_ | Hne]; [exact IH | now destruct Hne].
Qed.

(** Once an occurrence has been replaced the scan resumes behind it. *)
Lemma replace_from_skip_app (old new s1 s : string) :
  PyStr.replace_from old new (String.length s1) (s1 +:+ s)
  = PyStr.replace_from old new 0 s.
Proof.
  induction s1 as [|c s1 IH]; [| exact IH].
  destruct s; reflexivity.
Qed.

Lemma replace_from_plain_app (k new a s : string) :
  plain a = true ->
  PyStr.replace_from (placeholder k) new 0 (a +:+ s)
  = a +:+ PyStr.replace_from (placeholder k) new 0 s.
Proof.
  unfold plain, placeholder.
  induction a as [|c a IH]; intros H; [reflexivity |].
  cbn [list_ascii_of_string forallb] in H.
  apply andb_true_iff in H as [Hc Ha].
  cbn [String.append PyStr.replace_from String.prefix].
  destruct (ascii_dec "{" c) as [<- | _]; [discriminate Hc |].
  f_equal. exact (IH Ha).
Qed.

(** The placeholder of [k] between two texts without braces is replaced by
    the value, whatever the value holds. *)
Lemma replace_in_context (a b k v : string) :
  plain a = true -> plain b = true ->
  PyStr.replace (a +:+ placeholder k +:+ b) (placeholder k) v = a +:+ v +:+ b.
Proof.
  intros Ha Hb.
  change (PyStr.replace (a +:+ placeholder k +:+ b) (placeholder k) v)
    with (PyStr.replace_from (placeholder k) v 0 (a +:+ placeholder k +:+ b)).
  rewrite replace_from_plain_app by exact Ha. f_equal.
  pose proof (prefix_app (placeholder k) b) as Hp.
  pose proof (replace_from_skip_app (placeholder k) v (k +:+ "}") b) as Hs.
  unfold placeholder in *. cbn [String.append] in *.
  cbn [PyStr.replace_from]. rewrite Hp. f_equal.
  cbn [String.length].
  replace (S (String.length (k +:+ "}")) - 1)%nat
    with (String.length (k +:+ "}")) by lia.
  rewrite Hs.
  apply PyStrFacts.replace_from_absent.
  exact (placeholder_absent k b Hb).
Qed.

(** *** Substitution on templates *)

Lemma render_app (t1 t2 : list piece) :
  render (t1 ++ t2) = render t1 +:+ render t2.
Proof.
  induction t1 as [|p t1 IH]; [reflexivity |].
  cbn [app render]. now rewrite IH, PyStrFacts.append_assoc.
Qed.

Lemma clean_cons (c : ascii) (k : string) :
  clean (String c k) = true ->
  c <> "{"%char /\ c <> "}"%char /\ clean k = true.
Proof.
  unfold clean. cbn [list_ascii_of_string forallb].
  intros H. apply andb_true_iff in H as [Hc Hk].
  apply andb_true_iff in Hc as [Ho Hcl].
  repeat split; [| | exact Hk].
  - intros ->. discriminate Ho.
  - intros ->. discriminate Hcl.
Qed.

(** A name without braces followed by a closing brace holds no opening
    brace. *)
Lemma clean_closed_plain (k : string) :
  clean k = true -> plain (k +:+ "}") = true.
Proof.
  induction k as [|c k IH]; intros H; [reflexivity |].
  apply clean_cons in H as (Ho & _ & Hk).
  unfold plain in *. cbn [String.append list_ascii_of_string forallb].
  rewrite (IH Hk), andb_true_r.
  destruct (Ascii.eqb_spec c "{"); [contradiction | reflexivity].
Qed.

(** Two names without braces that differ are told apart at the closing
    brace at the latest. *)
Lemma closed_names_differ (k : string) :
  forall k' rest,
  clean k = true -> clean k' = true -> k <> k' ->
  String.prefix (k +:+ "}") ((k' +:+ "}") +:+ rest) = false.
Proof.
  induction k as [|c k IH]; intros [|c' k'] rest Hk Hk' Hne.
  - congruence.
  - apply clean_cons in Hk' as (_ & Hcl & _).
    cbn [String.append String.prefix].
    destruct (ascii_dec "}" c') as [<- | _]; [congruence | reflexivity].
  - apply clean_cons in Hk as (_ & Hcl & _).
    cbn [String.append String.prefix].
    destruct (ascii_dec c "}") as [-> | _]; [congruence | reflexivity].
  - apply clean_cons in Hk as (_ & _ & Hk).
    apply clean_cons in Hk' as (_ & _ & Hk').
    cbn [String.append String.prefix].
    destruct (ascii_dec c c') as [<- | _]; [| reflexivity].
    apply IH; [exact Hk | exact Hk' | congruence].
Qed.

(** At a placeholder of the entry the value is emitted and the scan goes on
    behind the placeholder. *)
Lemma replace_from_hit (k v rest : string) :
  PyStr.replace_from (placeholder k) v 0 (placeholder k +:+ rest)
  = v +:+ PyStr.replace_from (placeholder k) v 0 rest.
Proof.
  pose proof (prefix_app (placeholder k) rest) as Hp.
  pose proof (replace_from_skip_app (placeholder k) v (k +:+ "}") rest) as Hs.
  unfold placeholder in *. cbn [String.append] in *.
  cbn [PyStr.replace_from]. rewrite Hp. f_equal.
  cbn [String.length].
  replace (S (String.length (k +:+ "}")) - 1)%nat
    with (String.length (k +:+ "}")) by lia.
  exact Hs.
Qed.

(** A placeholder of another name is passed over. *)
Lemma replace_from_miss (k k' v rest : string) :
  clean k = true -> clean k' = true -> k <> k' ->
  PyStr.replace_from (placeholder k) v 0 (placeholder k' +:+ rest)
  = placeholder k' +:+ PyStr.replace_from (placeholder k) v 0 rest.
Proof.
  intros Hk Hk' Hne.
  pose proof (closed_names_differ k k' rest Hk Hk' Hne) as Hd.
  pose proof (replace_from_plain_app k v (k' +:+ "}") rest
                (clean_closed_plain k' Hk')) as Hrest.
  unfold placeholder in *. cbn [String.append] in *.
  cbn [PyStr.replace_from String.prefix].
  destruct (ascii_dec "{" "{") as [_ | Hbad]; [| now destruct Hbad].
  rewrite Hd. f_equal. exact Hrest.
Qed.

(** One entry on a well-formed template: every placeholder of its name is
    replaced by the value, nothing else changes. *)
Lemma replace_render (k : string) (value t : list piece) :
  clean k = true ->
  well_formed t = true ->
  PyStr.replace (render t) (placeholder k) (render value)
  = render (substitute t (k, value)).
Proof.
  intros Hk.
  change (PyStr.replace (render t) (placeholder k) (render value))
    with (PyStr.replace_from (placeholder k) (render value) 0 (render t)).
  unfold substitute. cbn [fst snd].
  induction t as [|[s | k'] t IH]; intros Hwf; [reflexivity | |];
    cbn [well_formed forallb] in Hwf; apply andb_true_iff in Hwf as [Hp Hwf];
    fold (well_formed t) in Hwf; specialize (IH Hwf);
    cbn [render render_piece flat_map fill].
  - rewrite replace_from_plain_app by exact Hp.
    rewrite IH. cbn [app render render_piece]. reflexivity.
  - destruct (String.eqb_spec k' k) as [-> | Hne].
    + rewrite replace_from_hit, IH. now rewrite render_app.
    + rewrite replace_from_miss by (try assumption; congruence).
      rewrite IH. cbn [app render render_piece]. reflexivity.
Qed.

Lemma well_formed_app (t1 t2 : list piece) :
  well_formed (t1 ++ t2) = well_formed t1 && well_formed t2.
Proof. unfold well_formed. apply forallb_app. Qed.

Lemma well_formed_substitute (t : list piece) (e : string * list piece) :
  well_formed t = true -> well_formed (snd e) = true ->
  well_formed (substitute t e) = true.
Proof.
  intros Hwf Hvalue. unfold substitute.
  induction t as [|p t IH]; [reflexivity |].
  cbn [well_formed forallb] in Hwf. apply andb_true_iff in Hwf as [Hp Hwf].
  fold (well_formed t) in Hwf.
  cbn [flat_map]. rewrite well_formed_app, (IH Hwf), andb_true_r.
  destruct p as [s | k']; cbn [fill].
  - cbn [well_formed forallb]. now rewrite Hp.
  - destruct (String.eqb k' (fst e)); [exact Hvalue |].
    cbn [well_formed forallb]. now rewrite Hp.
Qed.

(** A pass over entries, on templates. *)
Lemma replace_each_render (es : list (string * list piece)) :
  entries_ok es = true ->
  forall t, well_formed t = true ->
  replace_each (rendered es) (render t) = render (fold_left substitute es t).
Proof.
  unfold replace_each.
  induction es as [|[k value] es IH]; intros Hok t Hwf; [reflexivity |].
  cbn [entries_ok forallb fst snd] in Hok.
  apply andb_true_iff in Hok as [He Hok]. fold (entries_ok es) in Hok.
  apply andb_true_iff in He as [Hk Hvalue].
  cbn [rendered map fold_left fst snd].
  rewrite replace_render by assumption.
  apply (IH Hok).
  now apply well_formed_substitute.
Qed.

Lemma entries_ok_app (es1 es2 : list (string * list piece)) :
  entries_ok (es1 ++ es2) = entries_ok es1 && entries_ok es2.
Proof. unfold entries_ok. apply forallb_app. Qed.

Lemma rendered_app (es1 es2 : list (string * list piece)) :
  rendered (es1 ++ es2) = rendered es1 ++ rendered es2.
Proof. unfold rendered. apply map_app. Qed.

(** Substitution on templates, for the two maps. *)
Lemma replace_with_variables_render (t : list piece)
    (computed user : list (string * list piece)) :
  entries_ok user = true ->
  entries_ok computed = true ->
  well_formed t = true ->
  replace_with_variables (render t) (rendered computed) (rendered user)
  = render (fold_left substitute (user ++ computed) t).
Proof.
  intros Hu Hc Hwf. unfold replace_with_variables.
  rewrite <- replace_each_app, <- rendered_app.
  apply replace_each_render; [| exact Hwf].
  now rewrite entries_ok_app, Hu, Hc.
Qed.

(** C1 (as amended): substitution is one left-to-right pass over the user
    entries and then the computed entries, in map order.  On a template
    and values made of text without braces and placeholders of names
    without braces, each entry in turn fills every placeholder of its name
    with its value and does not look at what it has put in: the result is
    the template with the entries applied one after the other.  So a
    placeholder that a value brings in is expanded by the entries that
    come after the one that brought it, and by no other. *)
Theorem substitution_is_one_pass_per_entry
    (t : list piece) (computed user : list (string * list piece)) :
  entries_ok user = true ->
  entries_ok computed = true ->
  well_formed t = true ->
  replace_with_variables (render t) (rendered computed) (rendered user)
  = render (fold_left substitute (user ++ computed) t).
Proof. exact (replace_with_variables_render t computed user). Qed.

(** With b before a in the computed map, the placeholder that the value of
    a brings in stays, at every place where a stood; with a before b it is
    expanded. *)
Lemma substitution_is_one_pass_per_entry_witness :
  replace_with_variables "{a}" [("b", "X"); ("a", "{b}")] [] = "{b}"
  /\ replace_with_variables "{a}-{a}" [("b", "X"); ("a", "{b}")] [] = "{b}-{b}"
  /\ replace_with_variables "{a}-{a}" [("a", "{b}"); ("b", "X")] [] = "X-X".
Proof.
  split; [| split].
  - exact (substitution_is_one_pass_per_entry
             [Hole "a"] [("b", [Text "X"]); ("a", [Hole "b"])] []
             eq_refl eq_refl eq_refl).
  - exact (substitution_is_one_pass_per_entry
             [Hole "a"; Text "-"; Hole "a"]
             [("b", [Text "X"]); ("a", [Hole "b"])] []
             eq_refl eq_refl eq_refl).
  - exact (substitution_is_one_pass_per_entry
             [Hole "a"; Text "-"; Hole "a"]
             [("a", [Hole "b"]); ("b", [Text "X"])] []
             eq_refl eq_refl eq_refl).
Defined.

(** In the order a, b the placeholder that the value of a brings in is
    expanded by the entry b that follows. *)
Lemma single_pass_counterexample :
  replace_with_variables "{a}" [("a", "{b}"); ("b", "X")] [] = "X"
  /\ replace_with_variables "{a}" [("a", "{b}"); ("b", "X")] [] <> "{b}".
Proof. split; [reflexivity | discriminate]. Qed.

(** *** Precedence of the user variables *)

Lemma substitute_absent (k : string) (value t : list piece) :
  mentions k t = false -> substitute t (k, value) = t.
Proof.
  unfold substitute, mentions. cbn [fst snd].
  induction t as [|p t IH]; intros H; [reflexivity |].
  cbn [existsb] in H. apply orb_false_iff in H as [Hp Ht].
  cbn [flat_map]. rewrite (IH Ht).
  destruct p as [s | k']; cbn [fill]; [reflexivity |].
  now rewrite Hp.
Qed.

Lemma mentions_app (k : string) (t1 t2 : list piece) :
  mentions k (t1 ++ t2) = mentions k t1 || mentions k t2.
Proof. unfold mentions. apply existsb_app. Qed.

(** An entry whose value does not hold the placeholder of [k] does not
    bring it into a template that is free of it; the entry of [k] itself
    removes it. *)
Lemma mentions_substitute (k : string) (t : list piece) (e : string * list piece) :
  mentions k (snd e) = false ->
  mentions k t = false \/ fst e = k ->
  mentions k (substitute t e) = false.
Proof.
  intros Hvalue Hcase. unfold substitute.
  induction t as [|p t IH]; [reflexivity |].
  assert (Hrest : mentions k t = false \/ fst e = k).
  { destruct Hcase as [Ht | He]; [left | now right].
    unfold mentions in *. cbn [existsb] in Ht.
    now apply orb_false_iff in Ht as [_ Ht]. }
  cbn [flat_map]. rewrite mentions_app, (IH Hrest), orb_false_r.
  destruct p as [s | k']; cbn [fill]; [reflexivity |].
  destruct (String.eqb_spec k' (fst e)) as [-> | Hne]; [exact Hvalue |].
  unfold mentions. cbn [existsb]. rewrite orb_false_r.
  destruct Hcase as [Ht | He].
  - unfold mentions in Ht. cbn [existsb] in Ht.
    now apply orb_false_iff in Ht as [Hp _].
  - apply String.eqb_neq. congruence.
Qed.

Lemma mentions_fold (k : string) (es : list (string * list piece)) :
  (forall e, In e es -> mentions k (snd e) = false) ->
  forall t, mentions k t = false ->
  mentions k (fold_left substitute es t) = false.
Proof.
  induction es as [|e es IH]; intros Hes t Ht; [exact Ht |].
  cbn [fold_left]. apply IH.
  - intros e' Hin. apply Hes. now right.
  - apply mentions_substitute; [apply Hes; now left | now left].
Qed.

(** C7 (as amended): user variables take precedence over computed ones
    unless a value brings the placeholder back.  On templates and values
    made of text without braces and placeholders of names without braces:
    when the user map defines [k], and neither the user's value for [k]
    nor a value substituted between it and the computed entry for [k]
    holds the placeholder of [k], the computed value for [k] is never
    used.  The result is the template with the user entries and the other
    computed entries applied, with the user's value at every placeholder
    of [k] that the template or an earlier user value holds. *)
Theorem user_variables_take_precedence
    (t : list piece) (k : string) (uv cv : list piece)
    (upre upost cpre cpost : list (string * list piece)) :
  entries_ok (upre ++ (k, uv) :: upost) = true ->
  entries_ok (cpre ++ (k, cv) :: cpost) = true ->
  well_formed t = true ->
  mentions k uv = false ->
  (forall e, In e (upost ++ cpre) -> mentions k (snd e) = false) ->
  replace_with_variables (render t)
    (rendered (cpre ++ (k, cv) :: cpost)) (rendered (upre ++ (k, uv) :: upost))
  = render (fold_left substitute (upost ++ cpre ++ cpost)
              (substitute (fold_left substitute upre t) (k, uv))).
Proof.
  intros Hu Hc Hwf Huv Hbetween.
  rewrite replace_with_variables_render by assumption. f_equal.
  rewrite <- !app_assoc. rewrite fold_left_app. cbn [app fold_left].
  rewrite !fold_left_app.
  set (t1 := substitute (fold_left substitute upre t) (k, uv)).
  cbn [fold_left]. f_equal.
  apply substitute_absent.
  rewrite <- fold_left_app.
  apply mentions_fold; [exact Hbetween |].
  apply (mentions_substitute k _ (k, uv)); [exact Huv | now right].
Qed.

(** User os = mac against computed os = linux, for one and for two
    placeholders. *)
Lemma user_variables_take_precedence_witness :
  replace_with_variables "{os}" [("os", "linux")] [("os", "mac")] = "mac"
  /\ replace_with_variables "cc -D{os} -o out-{os}" [("os", "linux")] [("os", "mac")]
     = "cc -Dmac -o out-mac".
Proof.
  split.
  - refine (user_variables_take_precedence
              [Hole "os"] "os" [Text "mac"] [Text "linux"] [] [] [] []
              eq_refl eq_refl eq_refl eq_refl _).
    intros e [].
  - refine (user_variables_take_precedence
              [Text "cc -D"; Hole "os"; Text " -o out-"; Hole "os"]
              "os" [Text "mac"] [Text "linux"] [] [] [] []
              eq_refl eq_refl eq_refl eq_refl _).
    intros e [].
Defined.

(** A user value that is the placeholder of its own name hands the
    template back to the computed entry: the result is the computed
    value, not the user's. *)
Lemma user_precedence_counterexample :
  replace_with_variables "{os}" [("os", "linux")] [("os", "{os}")] = "linux"
  /\ replace_with_variables "{os}" [("os", "linux")] [("os", "{os}")] <> "{os}".
Proof. split; [reflexivity | discriminate]. Qed.

(** ** The banner *)

Lemma substring_first_chars (s : string) :
  forall n, String.substring 0 n s = first_chars n s.
Proof.
  unfold first_chars.
  induction s as [|c s IH]; intros [|n]; simpl; try reflexivity.
  now rewrite IH.
Qed.

Lemma length_chars (s : string) : length (list_ascii_of_string s) = String.length s.
Proof. induction s as [|c s IH]; simpl; [reflexivity | now rewrite IH]. Qed.

Lemma length_string_of_list (l : list ascii) :
  String.length (string_of_list_ascii l) = length l.
Proof. induction l as [|c l IH]; simpl; [reflexivity | now rewrite IH]. Qed.

Lemma first_chars_all (n : nat) (s : string) :
  (String.length s <= n)%nat -> first_chars n s = s.
Proof.
  intros H. unfold first_chars.
  rewrite take_ge by (rewrite length_chars; exact H).
  apply string_of_list_ascii_of_string.
Qed.

Lemma length_first_chars (n : nat) (s : string) :
  String.length (first_chars n s) = Nat.min n (String.length s).
Proof.
  unfold first_chars. now rewrite length_string_of_list, length_take, length_chars.
Qed.

Lemma prefix_first_chars (s : string) :
  forall n, String.prefix (first_chars n s) s = true.
Proof.
  unfold first_chars.
  induction s as [|c s IH]; intros [|n]; simpl; try reflexivity.
  destruct (ascii_dec c c) as [_|Hne]; [apply IH | now destruct Hne].
Qed.

Lemma length_hashes (n : nat) : String.length (hashes n) = n.
Proof. induction n as [|n IH]; simpl; [reflexivity | now rewrite IH]. Qed.

Lemma join_hashes (l : list ascii) :
  PyStr.join EmptyString (map (fun _ => "#") l) = hashes (length l).
Proof.
  unfold PyStr.join.
  induction l as [|c l IH]; [reflexivity |].
  cbn [map String.concat length hashes].
  destruct l as [|c' l]; [reflexivity |].
  rewrite IH. reflexivity.
Qed.

(** The title as [banner] cuts it. *)
Lemma banner_truncation (text : string) :
  (if (110 <? String.length text)%nat then PyStr.slice_to 110 text else text)
  = first_chars 110 text.
Proof.
  destruct (Nat.ltb_spec 110 (String.length text)) as [Hlt | Hge].
  - apply substring_first_chars.
  - symmetry. now apply first_chars_all.
Qed.

(** C9: for every title, the banner is the shell command [echo -e] applied
    to the quoted text that reads: an empty line, a line of hash signs of
    length 8 + len(title), the line "### title ###", the same line of hash
    signs, and an empty line, where the title is cut to its first 110
    characters when it is longer. *)
Theorem banner_format (title : string) :
  let t := first_chars 110 title in
  banner title = "echo -e '" +:+ banner_text title +:+ "'"
  /\ String.length t = Nat.min 110 (String.length title)
  /\ String.prefix t title = true
  /\ String.length (hashes (8 + String.length t)) = (8 + String.length t)%nat.
Proof.
  intros t. repeat split.
  - unfold banner, banner_text. rewrite banner_truncation. fold t.
    unfold PyStr.chars. rewrite join_hashes, length_chars.
    change ("########" +:+ hashes (String.length t))
      with (hashes (8 + String.length t)).
    unfold PyStr.join. cbn [String.concat].
    clearbody t.
    rewrite !PyStrFacts.append_assoc. reflexivity.
  - apply length_first_chars.
  - apply prefix_first_chars.
  - apply length_hashes.
Qed.

(** ** Extraction updates the dictionary it is given *)

Section Properties.
Context {platform : Platform}.

Lemma with_dict_same (l : loc) (st : state) :
  (l < length (heap st))%nat -> with_dict l (deref l st) st = st.
Proof.
  intros Hl. destruct st as [h o w]. unfold with_dict, deref.
  cbn [heap output world] in *.
  destruct (lookup_lt_is_Some_2 h l Hl) as [d Hd].
  rewrite Hd. cbn [default from_option id]. now rewrite list_insert_id.
Qed.

Lemma deref_with_dict (l : loc) (d : dict) (st : state) :
  (l < length (heap st))%nat -> deref l (with_dict l d st) = d.
Proof.
  intros Hl. unfold deref, with_dict. cbn [heap output world].
  now rewrite list_lookup_insert_eq.
Qed.

Lemma deref_with_dict_other (l l' : loc) (d : dict) (st : state) :
  l <> l' -> deref l' (with_dict l d st) = deref l' st.
Proof.
  intros Hne. unfold deref, with_dict. cbn [heap output world].
  now rewrite list_lookup_insert_ne.
Qed.

Lemma with_dict_twice (l : loc) (d d' : dict) (st : state) :
  with_dict l d' (with_dict l d st) = with_dict l d' st.
Proof. unfold with_dict. cbn [heap output world]. now rewrite list_insert_insert_eq. Qed.

Lemma length_with_dict (l : loc) (d : dict) (st : state) :
  length (heap (with_dict l d st)) = length (heap st).
Proof. unfold with_dict. cbn [heap output world]. apply length_insert. Qed.

(** The loop of [extract_variables]. *)
Lemma extract_variables_loop (variables : loc) (user : dict)
    (decls : list (string * scalar)) :
  forall st, (variables < length (heap st))%nat ->
  for_each decls (fun '(var, x) =>
      bind (load variables) (fun d =>
        store variables
          (dict_set var (replace_with_variables (py_str x) d user) d))) st
  = (Ret tt, with_dict variables
               (extracted_variables decls (deref variables st) user) st).
Proof.
  induction decls as [|[var x] decls IH]; intros st Hl.
  - simpl. unfold ret. now rewrite with_dict_same.
  - cbn [for_each]. unfold bind at 1. unfold bind at 1. unfold load, store.
    fold (with_dict variables
            (dict_set var (replace_with_variables (py_str x) (deref variables st) user)
               (deref variables st)) st).
    rewrite IH by (rewrite length_with_dict; exact Hl).
    rewrite deref_with_dict by exact Hl.
    now rewrite with_dict_twice.
Qed.

(** The loop of [extract_environment], on an environment that is another
    object than the variables. *)
Lemma extract_environment_loop (environment variables : loc) (user : dict)
    (decls : list (string * scalar)) :
  environment <> variables ->
  forall st, (environment < length (heap st))%nat ->
  for_each decls (fun '(var, x) =>
      bind (load variables) (fun d =>
        bind (load environment) (fun e =>
          store environment
            (dict_set var (replace_with_variables (py_str x) d user) e)))) st
  = (Ret tt, with_dict environment
               (extracted_environment decls (deref environment st)
                  (deref variables st) user) st).
Proof.
  intros Hne.
  induction decls as [|[var x] decls IH]; intros st Hl.
  - simpl. unfold ret. now rewrite with_dict_same.
  - cbn [for_each]. unfold bind at 1. unfold bind at 1. unfold bind at 1.
    unfold load, store.
    fold (with_dict environment
            (dict_set var (replace_with_variables (py_str x) (deref variables st) user)
               (deref environment st)) st).
    rewrite IH by (rewrite length_with_dict; exact Hl).
    rewrite deref_with_dict by exact Hl.
    rewrite deref_with_dict_other by exact Hne.
    now rewrite with_dict_twice.
Qed.

(** When [get_path] returns, it has changed nothing. *)
Lemma get_path_returns (root : node) (variables : loc) (user : dict)
    (st st' : state) (r : option string) :
  get_path root variables user st = (Ret r, st') -> st' = st.
Proof.
  unfold get_path. destruct (n_path root) as [p|].
  - unfold bind, load.
    destruct (re_match _ getcwd); unfold raise, ret; congruence.
  - unfold error. discriminate.
Qed.

Lemma extract_variables_in_place (root : node) (variables : loc) (user : dict)
    (st : state) :
  (variables < length (heap st))%nat ->
  extract_variables root variables user st
    = (Ret variables,
       match n_variables root with
       | Some decls =>
           with_dict variables
             (extracted_variables decls (deref variables st) user) st
       | None => st
       end).
Proof.
  intros Hv. unfold extract_variables.
  destruct (n_variables root) as [decls|]; [| reflexivity].
  unfold bind at 1. now rewrite extract_variables_loop.
Qed.

(** Examining a project changes at most the variables. *)
Lemma examine_frame (project : node) (variables : loc) (user : dict)
    (st st1 : state) (path : option string) :
  (variables < length (heap st))%nat ->
  examine project variables user st = (Ret path, st1) ->
  length (heap st1) = length (heap st)
  /\ forall l, l <> variables -> deref l st1 = deref l st.
Proof.
  intros Hv. unfold examine, bind.
  rewrite extract_variables_in_place by exact Hv.
  destruct (get_path project variables user _) as [[r|code|exn] st2] eqn:Hg;
    try discriminate.
  apply get_path_returns in Hg. intros H. inversion H; subst.
  destruct (n_variables project) as [decls|].
  - split; [apply length_with_dict |].
    intros l Hl. apply deref_with_dict_other. congruence.
  - now split.
Qed.

Lemma rejected_frame (variables : loc) (user : dict)
    (projects : list (string * node)) (st st' : state) :
  rejected variables user projects st st' ->
  (variables < length (heap st))%nat ->
  length (heap st') = length (heap st)
  /\ forall l, l <> variables -> deref l st' = deref l st.
Proof.
  induction 1 as [st | p project rest st path st1 st2 Hex Hfalse _ IH]; intros Hv.
  - now split.
  - destruct (examine_frame _ _ _ _ _ _ Hv Hex) as [Hlen Hother].
    destruct IH as [Hlen' Hother']; [lia |].
    split; [lia |].
    intros l Hl. now rewrite Hother', Hother.
Qed.

(** C2 (as amended): [extract_variables] and [extract_environment] update
    the inherited dictionary in place and return that same object.  The
    declarations of the node are resolved in order, each against the
    variables as updated so far, and written into the inherited
    dictionary; no other object, no output and nothing of the world
    changes, and a node without the key leaves the state as it is.  The
    projects that are examined and rejected leave the environment as it
    is, so the environment the selected project sees holds no entry of an
    earlier project. *)
Theorem extraction_updates_in_place
    (root : node) (variables environment : loc) (user : dict) (st : state) :
  (variables < length (heap st))%nat ->
  (environment < length (heap st))%nat ->
  environment <> variables ->
  extract_variables root variables user st
    = (Ret variables,
       match n_variables root with
       | Some decls =>
           with_dict variables
             (extracted_variables decls (deref variables st) user) st
       | None => st
       end)
  /\ extract_environment root environment variables user st
    = (Ret environment,
       match n_environment root with
       | Some decls =>
           with_dict environment
             (extracted_environment decls (deref environment st)
                (deref variables st) user) st
       | None => st
       end)
  /\ (forall projects st',
        rejected variables user projects st st' ->
        deref environment st' = deref environment st).
Proof.
  intros Hv He Hne. split; [| split].
  - now apply extract_variables_in_place.
  - unfold extract_environment. destruct (n_environment root) as [decls|]; [|reflexivity].
    unfold bind at 1. now rewrite extract_environment_loop.
  - intros projects st' Hrej.
    now apply (rejected_frame _ _ _ _ _ Hrej Hv).
Qed.

(** ** Control flow of the run *)

(** A loop whose body only updates dictionaries ends normally, without
    output and without touching the world. *)
Lemma for_each_quiet {A} (body : A -> M unit) (xs : list A) :
  (forall x st, exists st', body x st = (Ret tt, st')
       /\ output st' = output st /\ world st' = world st) ->
  forall st, exists st', for_each xs body st = (Ret tt, st')
       /\ output st' = output st /\ world st' = world st.
Proof.
  intros Hbody. induction xs as [|x xs IH]; intros st.
  - exists st. now repeat split.
  - cbn [for_each]. unfold bind.
    destruct (Hbody x st) as (st1 & -> & Ho1 & Hw1).
    destruct (IH st1) as (st2 & -> & Ho2 & Hw2).
    exists st2. repeat split; congruence.
Qed.

(** [extract_variables] always returns the object it was given. *)
Lemma extract_variables_returns (root : node) (variables : loc) (user : dict)
    (st : state) :
  exists st', extract_variables root variables user st = (Ret variables, st')
    /\ output st' = output st /\ world st' = world st.
Proof.
  unfold extract_variables. destruct (n_variables root) as [decls|].
  - unfold bind at 1.
    match goal with |- context [for_each decls ?b st] =>
      destruct (for_each_quiet b decls) with (st := st) as (st' & -> & Ho & Hw)
    end.
    + intros [var x] st0. eexists. unfold bind, load, store.
      split; [reflexivity | split; reflexivity].
    + exists st'. now repeat split.
  - exists st. now repeat split.
Qed.

(** [extract_environment] always returns the environment it was given. *)
Lemma extract_environment_returns (root : node) (environment variables : loc)
    (user : dict) (st : state) :
  exists st', extract_environment root environment variables user st
      = (Ret environment, st')
    /\ output st' = output st /\ world st' = world st.
Proof.
  unfold extract_environment. destruct (n_environment root) as [decls|].
  - unfold bind at 1.
    match goal with |- context [for_each decls ?b st] =>
      destruct (for_each_quiet b decls) with (st := st) as (st' & -> & Ho & Hw)
    end.
    + intros [var x] st0. eexists. unfold bind, load, store.
      split; [reflexivity | split; reflexivity].
    + exists st'. now repeat split.
  - exists st. now repeat split.
Qed.

(** One round of the loop, by the result of examining the project. *)
Lemma run_projects_cons (args : arguments) (p : string) (project : node)
    (rest : list (string * node)) (variables environment : loc) (user : dict)
    (st : state) :
  run_projects args ((p, project) :: rest) variables environment user st
  = match examine project variables user st with
    | (Ret (Some path), st1) =>
        if truthy (Some path)
        then handle args project path variables environment user st1
        else run_projects args rest variables environment user st1
    | (Ret None, st1) => run_projects args rest variables environment user st1
    | (Exit code, st1) => (Exit code, st1)
    | (Raise exn, st1) => (Raise exn, st1)
    end.
Proof.
  cbn [run_projects]. unfold examine. unfold bind at 1 3.
  destruct (extract_variables_returns project variables user st) as (st0 & -> & _ & _).
  unfold bind at 1.
  destruct (get_path project variables user st0) as [[[path|]|code|exn] st1];
    try reflexivity.
  destruct (truthy (Some path)); reflexivity.
Qed.

Lemma examine_quiet (project : node) (variables : loc) (user : dict)
    (st st1 : state) (path : option string) :
  examine project variables user st = (Ret path, st1) ->
  output st1 = output st /\ world st1 = world st.
Proof.
  unfold examine, bind.
  destruct (extract_variables_returns project variables user st) as (st0 & -> & Ho & Hw).
  intros H.
  destruct (get_path project variables user st0) as [[r|code|exn] st2] eqn:Hg;
    try discriminate.
  apply get_path_returns in Hg. inversion H; subst. now split.
Qed.

Lemma rejected_quiet (variables : loc) (user : dict)
    (projects : list (string * node)) (st st' : state) :
  rejected variables user projects st st' ->
  output st' = output st /\ world st' = world st.
Proof.
  induction 1 as [st | p project rest st path st1 st2 Hex Hfalse _ [IHo IHw]].
  - now split.
  - apply examine_quiet in Hex as [Ho Hw]. split; congruence.
Qed.

(** Rejected projects are passed over. *)
Lemma run_projects_rejected (args : arguments) (variables environment : loc)
    (user : dict) (pre rest : list (string * node)) (st st1 : state) :
  rejected variables user pre st st1 ->
  run_projects args (pre ++ rest) variables environment user st
  = run_projects args rest variables environment user st1.
Proof.
  induction 1 as [st | p project pre st path st1 st2 Hex Hfalse _ IH].
  - reflexivity.
  - rewrite <- app_comm_cons, run_projects_cons, Hex.
    destruct path as [path|]; [rewrite Hfalse |]; exact IH.
Qed.


(** C10: a project whose pattern matches only the empty prefix of the
    working directory is passed over like one that does not match: the
    empty string that [get_path] returns is false at the test of the loop,
    and the run goes on with the next project. *)
Theorem empty_match_is_skipped
    (args : arguments) (p : string) (project : node)
    (rest : list (string * node)) (variables environment : loc) (user : dict)
    (st st1 : state) (pattern : string) :
  extract_variables project variables user st = (Ret variables, st1) ->
  n_path project = Some pattern ->
  re_match (expanduser (replace_with_variables pattern (deref variables st1) user))
           getcwd = ReMatch EmptyString ->
  examine project variables user st = (Ret (Some EmptyString), st1)
  /\ truthy (Some EmptyString) = truthy None
  /\ rejected variables user [(p, project)] st st1
  /\ run_projects args ((p, project) :: rest) variables environment user st
     = run_projects args rest variables environment user st1.
Proof.
  intros Hvars Hpath Hre.
  assert (Hex : examine project variables user st = (Ret (Some EmptyString), st1)).
  { unfold examine, bind. rewrite Hvars.
    unfold get_path. rewrite Hpath. unfold bind, load. now rewrite Hre. }
  repeat split.
  - exact Hex.
  - eapply rejected_cons; [exact Hex | reflexivity | apply rejected_nil].
  - now rewrite run_projects_cons, Hex.
Qed.

(** ** Running commands *)

Lemma assemble_pipeline (steps : list string) (variables : loc) (user : dict) :
  forall (cmd : list string) (st : state),
  assemble steps variables user cmd st
  = (Ret (pipeline steps (deref variables st) user cmd), st).
Proof.
  induction steps as [|step steps IH]; intros cmd st; [reflexivity |].
  cbn [assemble pipeline]. unfold bind, load. rewrite IH.
  now rewrite <- !app_assoc.
Qed.

Lemma prepared_quiet (project : node) (variables environment : loc) (user : dict)
    (st : state) :
  output (prepared project variables environment user st) = output st
  /\ world (prepared project variables environment user st) = world st.
Proof.
  unfold prepared.
  destruct (extract_variables_returns project variables user st)
    as (st1 & -> & Ho1 & Hw1).
  cbn [snd].
  destruct (extract_environment_returns project environment variables user st1)
    as (st2 & -> & Ho2 & Hw2).
  cbn [snd]. split; congruence.
Qed.

(** [build] on a project that has the key: one command, whatever the list
    of steps holds. *)
Lemma build_runs (project : node) (path : string) (variables environment : loc)
    (user : dict) (st : state) (steps : list string) :
  n_build project = Some steps ->
  build project path variables environment user st
  = execute_command
      (PyStr.join " "
         (pipeline steps
            (deref variables (prepared project variables environment user st))
            user []))
      path environment (prepared project variables environment user st).
Proof.
  intros Hsteps. unfold build, prepared. rewrite Hsteps.
  unfold bind at 1.
  destruct (extract_variables_returns project variables user st)
    as (st1 & -> & _ & _).
  cbn [snd]. unfold bind at 1.
  destruct (extract_environment_returns project environment variables user st1)
    as (st2 & -> & _ & _).
  cbn [snd]. unfold bind at 1. rewrite assemble_pipeline. reflexivity.
Qed.

Lemma execute_command_failure (cmd cwd : string) (environment : loc) (st : state) :
  fst (subprocess_call cmd cwd (dict_merge environ (deref environment st)) (world st))
    <> 0 ->
  execute_command cmd cwd environment st = (Exit 1, failed cmd cwd environment st).
Proof.
  intros Hrc. unfold execute_command, failed, bind, print, emit, load, call.
  cbn [heap output world].
  destruct (subprocess_call cmd cwd _ (world st)) as [rc w]. cbn [fst snd] in *.
  destruct (Z.eqb_spec rc 0) as [Heq | Hne]; [contradiction |].
  cbn [negb]. unfold error. cbn [heap output world].
  now rewrite <- app_assoc, <- app_assoc.
Qed.

(** What [execute_command] prints and runs before it looks at the exit
    code. *)
Lemma execute_command_output (cmd cwd : string) (environment : loc) (st : state) :
  exists tail,
    output (snd (execute_command cmd cwd environment st))
    = output st
        ++ [Stdout cmd; Call cmd cwd (dict_merge environ (deref environment st))]
        ++ tail.
Proof.
  unfold execute_command, bind, print, emit, load, call.
  cbn [heap output world].
  destruct (subprocess_call cmd cwd _ (world st)) as [rc w].
  destruct (negb (rc =? 0)).
  - eexists. unfold error. cbn [snd heap output world].
    rewrite <- !app_assoc. reflexivity.
  - exists []. unfold ret. cbn [snd output].
    rewrite <- !app_assoc. reflexivity.
Qed.

(** C4: a command that returns a non-zero exit code is fatal.
    [execute_command] prints the command, runs it, prints on standard error
    the message that names it and exits with status 1.  When this happens
    in the build of the selected project, the whole run ends there with
    status 1: the final state is the one the failed build left, so with or
    without the test flag the test phase is not reached. *)
Theorem failing_command_is_fatal :
  (forall (cmd cwd : string) (environment : loc) (st : state),
     fst (subprocess_call cmd cwd (dict_merge environ (deref environment st))
            (world st)) <> 0 ->
     execute_command cmd cwd environment st
       = (Exit 1, failed cmd cwd environment st))
  /\ (forall (args : arguments) (p : string) (project : node)
            (post : list (string * node)) (variables environment : loc)
            (user : dict) (st st1 : state) (path : string) (steps : list string),
       examine project variables user st = (Ret (Some path), st1) ->
       path <> EmptyString ->
       a_no_build args = false ->
       n_build project = Some steps ->
       let st2 := prepared project variables environment user st1 in
       let cmd := PyStr.join " " (pipeline steps (deref variables st2) user []) in
       fst (subprocess_call cmd path (dict_merge environ (deref environment st2))
              (world st2)) <> 0 ->
       build project path variables environment user st1
         = (Exit 1, failed cmd path environment st2)
       /\ run_projects args ((p, project) :: post) variables environment user st
         = (Exit 1, failed cmd path environment st2)).
Proof.
  split; [exact execute_command_failure |].
  intros args p project post variables environment user st st1 path steps
    Hex Hpath Hbuild Hsteps st2 cmd Hrc.
  assert (Hb : build project path variables environment user st1
               = (Exit 1, failed cmd path environment st2)).
  { rewrite (build_runs _ _ _ _ _ _ steps Hsteps).
    now apply execute_command_failure. }
  split; [exact Hb |].
  rewrite run_projects_cons, Hex.
  destruct path as [|c path]; [now destruct Hpath |].
  cbn [truthy]. unfold handle. rewrite Hbuild. cbn [negb].
  unfold bind at 1. now rewrite Hb.
Qed.

(** C6, on a project whose [build] key holds the empty list: [build] does
    not return early.  It calls [execute_command] with the empty command
    line, which prints an empty line and runs a shell on the empty command
    in the matched directory. *)
Theorem empty_build_list_runs_a_command
    (path_key : option string) (vs es : option (list (string * scalar)))
    (tests : option (list string)) (path : string)
    (variables environment : loc) (user : dict) (st : state) :
  exists tail,
    output (snd (build (Node path_key vs es (Some []) tests) path
                   variables environment user st))
    = output st
        ++ [Stdout EmptyString;
            Call EmptyString path
              (dict_merge environ
                 (deref environment
                    (prepared (Node path_key vs es (Some []) tests)
                       variables environment user st)))]
        ++ tail.
Proof.
  rewrite (build_runs (Node path_key vs es (Some []) tests) path variables
             environment user st [] eq_refl).
  cbn [pipeline PyStr.join String.concat].
  destruct (execute_command_output EmptyString path environment
              (prepared (Node path_key vs es (Some []) tests)
                 variables environment user st)) as [tail Htail].
  exists tail. rewrite Htail.
  now destruct (prepared_quiet (Node path_key vs es (Some []) tests)
                  variables environment user st) as [-> _].
Qed.

End Properties.

(** ** Path matching *)

Section PathMatching.
Context {platform : Platform}.


End PathMatching.

(** ** The properties on concrete runs *)

Lemma literal_match_prefix (pattern subject group : string) :
  literal_match pattern subject = ReMatch group ->
  String.prefix group subject = true.
Proof.
  unfold literal_match.
  destruct (String.prefix pattern subject) eqn:Hp; [| discriminate].
  intros H. inversion H; subst. exact Hp.
Qed.

(** The declarations a, b and E are written into the dictionaries that
    were passed in. *)
Lemma extraction_updates_in_place_witness :
  extract_variables Demo.declaring 0%nat [] (Demo.start "/x" [])
    = (Ret 0%nat,
       @State (scripted "/x")
              [[("os", "fedora"); ("bt", "Release"); ("a", "1"); ("b", "12")]; []]
              [] [])
  /\ extract_environment Demo.declaring 1%nat 0%nat [] (Demo.start "/x" [])
    = (Ret 1%nat,
       @State (scripted "/x")
              [[("os", "fedora"); ("bt", "Release")]; [("E", "{b}")]] [] []).
Proof.
  destruct (@extraction_updates_in_place (scripted "/x") Demo.declaring
              0%nat 1%nat [] (Demo.start "/x" [])) as (Hvars & Henv & _).
  - simpl. lia.
  - simpl. lia.
  - lia.
  - split; [exact Hvars | exact Henv].
Defined.

(** The inherited dictionary is not left unchanged: after the call it holds
    the declarations of the node, and the object returned is the one passed
    in.  What a rejected project declared is still there when the next
    project is evaluated: the second project runs its step with the
    variable of the first. *)
Lemma extraction_is_pure_counterexample :
  deref 0%nat (snd (extract_variables Demo.declaring 0%nat [] (Demo.start "/x" [])))
    <> deref 0%nat (Demo.start "/x" [])
  /\ fst (extract_variables Demo.declaring 0%nat [] (Demo.start "/x" [])) = Ret 0%nat
  /\ commands (output (snd (
       @main (scripted "/x") Demo.args
         (Config (Node None None None None None)
                 (Some [("one", Demo.elsewhere); ("two", Demo.borrower)]))
         (@initial (scripted "/x") []))))
     = [banner "echo L" +:+ " && echo L"].
Proof.
  split; [| split].
  - vm_compute. discriminate.
  - reflexivity.
  - vm_compute. reflexivity.
Qed.

(** The commands of that run: the pipeline of the first project's build,
    then the pipeline of its test. *)
Example two_matching_projects :
  commands (output (snd (
    run_projects Demo.args
      [("one", Demo.elsewhere); ("two", Demo.first); ("three", Demo.second)]
      0%nat 1%nat [] (Demo.start "/x" []))))
  = [banner "make" +:+ " && make"; banner "ctest" +:+ " && ctest"].
Proof. vm_compute. reflexivity. Qed.

(** The build of the first project returns 1: the run ends there. *)
Lemma failing_command_is_fatal_witness :
  execute_command "false" "/x" 1%nat (Demo.start "/x" [1])
    = (Exit 1, failed "false" "/x" 1%nat (Demo.start "/x" [1]))
  /\ run_projects Demo.args [("two", Demo.first); ("three", Demo.second)]
       0%nat 1%nat [] (Demo.start "/x" [1])
    = (Exit 1,
       @State (scripted "/x") [[("os", "fedora"); ("bt", "Release")]; []]
         [Stdout (banner "make" +:+ " && make");
          Call (banner "make" +:+ " && make") "/x" [("HOME", "/home/user")];
          Stderr ("ERROR: Execution of " +:+ dquote +:+ banner "make" +:+ " && make"
                  +:+ dquote +:+ " failed.")]
         []).
Proof.
  destruct (@failing_command_is_fatal (scripted "/x")) as [Hexec Hrun].
  split.
  - apply Hexec. vm_compute. discriminate.
  - refine (proj2 (Hrun Demo.args "two" Demo.first [("three", Demo.second)] 0%nat 1%nat []
                     (Demo.start "/x" [1]) (Demo.start "/x" [1]) "/x" ["make"]
                     _ _ _ _ _)).
    + reflexivity.
    + discriminate.
    + reflexivity.
    + reflexivity.
    + vm_compute. discriminate.
Defined.




(** The empty pattern matches the empty prefix of /x; the project is passed
    over and the next one is selected. *)
Lemma empty_match_is_skipped_witness :
  run_projects Demo.args [("any", Demo.anywhere); ("two", Demo.first)]
    0%nat 1%nat [] (Demo.start "/x" [])
  = run_projects Demo.args [("two", Demo.first)] 0%nat 1%nat [] (Demo.start "/x" []).
Proof.
  refine (proj2 (proj2 (proj2
    (@empty_match_is_skipped (scripted "/x") Demo.args "any" Demo.anywhere
       [("two", Demo.first)] 0%nat 1%nat [] (Demo.start "/x" []) (Demo.start "/x" [])
       EmptyString _ _ _)))).
  - reflexivity.
  - reflexivity.
  - reflexivity.
Defined.

(** A project with an empty list of build steps, in /x: an empty line is
    printed and a shell runs the empty command. *)
Example empty_build_list :
  output (snd (build (Node (Some "/x") None None (Some []) None) "/x" 0%nat 1%nat []
                 (Demo.start "/x" [])))
  = [Stdout EmptyString; Call EmptyString "/x" [("HOME", "/home/user")]].
Proof. vm_compute. reflexivity. Qed.

(** A project without the [build] key: nothing happens. *)
Lemma build_without_key (platform : Platform) (project : node) (path : string)
    (variables environment : loc) (user : dict) (st : state) :
  n_build project = None ->
  build project path variables environment user st = (Ret tt, st).
Proof. intros H. unfold build. now rewrite H. Qed.

(** A whole run: one project with path /tmp/demo and the step echo hi, in
    /tmp/demo without flags.  The command is printed and run, and the run
    ends normally. *)
Example run_in_demo_directory :
  @main (scripted "/tmp/demo") (Args false false None get_system_name "Release")
    (Config (Node None None None None None)
            (Some [("demo", Node (Some "/tmp/demo") None None (Some ["echo hi"]) None)]))
    (@initial (scripted "/tmp/demo") [])
  = (Ret tt,
     @State (scripted "/tmp/demo")
       [[("os", "fedora"); ("bt", "Release")]; []]
       [Stdout (banner "echo hi" +:+ " && echo hi");
        Call (banner "echo hi" +:+ " && echo hi") "/tmp/demo" [("HOME", "/home/user")]]
       []).
Proof. vm_compute. reflexivity. Qed.

(** A whole run in a directory no project matches. *)
Example run_without_match :
  @main (scripted "/srv") (Args false true None get_system_name "Release")
    (Config (Node None None None None None)
            (Some [("demo", Node (Some "/tmp/demo") None None (Some ["echo hi"]) None)]))
    (@initial (scripted "/srv") [])
  = (Exit 1,
     @State (scripted "/srv")
       [[("os", "fedora"); ("bt", "Release")]; []]
       [Stderr "ERROR: No matching configuration entry found."]
       []).
Proof. vm_compute. reflexivity. Qed.

(** ** Further properties: substitution and dictionaries *)

(** X1: a template that holds no opening brace, or in which no placeholder
    of a user or computed entry occurs, comes out of the substitution as it
    went in. *)
Theorem substitution_without_placeholders
    (value : string) (variables user : dict) :
  plain value = true
  \/ (forall kv, In kv (user ++ variables) ->
        PyStr.occurs (placeholder (fst kv)) value = false) ->
  replace_with_variables value variables user = value.
Proof.
  intros [Hplain | Habsent].
  - now apply replace_with_variables_plain.
  - unfold replace_with_variables.
    rewrite (replace_each_absent user)
      by (intros kv Hin; apply Habsent, in_or_app; now left).
    apply replace_each_absent.
    intros kv Hin. apply Habsent, in_or_app. now right.
Qed.

Lemma substitution_without_placeholders_witness :
  replace_with_variables "make {target}" [("os", "fedora")] [("bt", "Debug")]
  = "make {target}".
Proof.
  apply substitution_without_placeholders. right.
  intros kv [Hkv | [Hkv | []]]; subst kv; vm_compute; reflexivity.
Defined.

Lemma dict_get_set (k k' v : string) (d : dict) :
  dict_get k (dict_set k' v d)
  = if String.eqb k k' then Some v else dict_get k d.
Proof.
  induction d as [|[k0 v0] d IH]; cbn [dict_set dict_get].
  - destruct (String.eqb_spec k k'); reflexivity.
  - destruct (String.eqb_spec k' k0) as [-> | Hne]; cbn [dict_get].
    + destruct (String.eqb_spec k k0); reflexivity.
    + rewrite IH.
      destruct (String.eqb_spec k k0) as [-> | Hne'];
        destruct (String.eqb_spec k0 k'); try reflexivity; try congruence;
        destruct (String.eqb_spec k k'); try reflexivity; congruence.
Qed.

Lemma dict_get_absent (k : string) (d : dict) :
  ~ In k (map fst d) -> dict_get k d = None.
Proof.
  induction d as [|[k0 v0] d IH]; intros H; [reflexivity |].
  cbn [dict_get]. cbn [map fst In] in H.
  destruct (String.eqb_spec k k0) as [-> | Hne]; [tauto |].
  apply IH. tauto.
Qed.

(** X4: the environment handed to a child process is the environment of
    the invoking process overlaid with the resolved environment: a name the
    overlay defines has the overlay's value, any other name keeps the value
    it has in the process environment. *)
Theorem environment_overlay_wins (base overlay : dict) (k : string) :
  NoDup (map fst overlay) ->
  dict_get k (dict_merge base overlay)
  = match dict_get k overlay with
    | Some v => Some v
    | None => dict_get k base
    end.
Proof.
  unfold dict_merge. revert base.
  induction overlay as [|[k1 v1] overlay IH]; intros base Hnd; [reflexivity |].
  cbn [map fst] in Hnd. apply NoDup_cons in Hnd as [Hfresh Hnd].
  cbn [fold_left fst snd dict_get]. rewrite (IH _ Hnd), dict_get_set.
  destruct (String.eqb_spec k k1) as [-> | Hne]; [| reflexivity].
  rewrite dict_get_absent; [reflexivity |].
  intros Hin. apply Hfresh. now apply list_elem_of_In.
Qed.

Lemma environment_overlay_wins_witness :
  dict_get "PATH" (dict_merge [("HOME", "/home/user"); ("PATH", "/bin")]
                              [("PATH", "/opt/bin"); ("CC", "gcc")])
  = Some "/opt/bin".
Proof.
  apply (environment_overlay_wins
           [("HOME", "/home/user"); ("PATH", "/bin")]
           [("PATH", "/opt/bin"); ("CC", "gcc")] "PATH").
  repeat constructor; rewrite ?list_elem_of_In; cbn; intuition discriminate.
Defined.

(** ** Further properties: the declarations of a node *)

Lemma extracted_variables_lookup (decls : list (string * scalar)) (user : dict)
    (k : string) :
  forall d,
  (In k (map fst decls) -> dict_get k (extracted_variables decls d user) <> None)
  /\ (~ In k (map fst decls) ->
      dict_get k (extracted_variables decls d user) = dict_get k d)
  /\ (dict_get k d <> None ->
      dict_get k (extracted_variables decls d user) <> None).
Proof.
  unfold extracted_variables.
  induction decls as [|[k1 x1] decls IH]; intros d; cbn [fold_left map fst snd In].
  - repeat split; tauto.
  - set (d1 := dict_set k1 (replace_with_variables (py_str x1) d user) d).
    destruct (IH d1) as (Hin & Hout & Hkeep).
    assert (Hd1 : dict_get k d1
                  = if String.eqb k k1
                    then Some (replace_with_variables (py_str x1) d user)
                    else dict_get k d) by apply dict_get_set.
    repeat split.
    + intros [<- | Hk].
      * apply Hkeep. rewrite Hd1, String.eqb_refl. discriminate.
      * now apply Hin.
    + intros Hnot. rewrite Hout by tauto. rewrite Hd1.
      destruct (String.eqb_spec k k1) as [-> | _]; [tauto | reflexivity].
    + intros Hdef. apply Hkeep. rewrite Hd1.
      destruct (String.eqb k k1); [discriminate | exact Hdef].
Qed.

Section Declarations.
Context {platform : Platform}.

(** X8: extracting the variables of a node only extends the scope.  Every
    variable the node declares is defined afterwards, a variable it does
    not declare keeps the value it had, and no variable that was defined
    becomes undefined. *)
Theorem declarations_extend_the_scope
    (root : node) (variables : loc) (user : dict) (st : state)
    (decls : list (string * scalar)) (k : string) :
  (variables < length (heap st))%nat ->
  n_variables root = Some decls ->
  (In k (map fst decls) ->
     dict_get k (deref variables (snd (extract_variables root variables user st)))
     <> None)
  /\ (~ In k (map fst decls) ->
     dict_get k (deref variables (snd (extract_variables root variables user st)))
     = dict_get k (deref variables st))
  /\ (dict_get k (deref variables st) <> None ->
     dict_get k (deref variables (snd (extract_variables root variables user st)))
     <> None).
Proof.
  intros Hv Hdecls.
  rewrite extract_variables_in_place by exact Hv.
  rewrite Hdecls. cbn [snd]. rewrite deref_with_dict by exact Hv.
  apply extracted_variables_lookup.
Qed.

End Declarations.

Lemma declarations_extend_the_scope_witness :
  dict_get "b" (deref 0%nat
     (snd (extract_variables Demo.declaring 0%nat [] (Demo.start "/x" []))))
  <> None.
Proof.
  refine (proj1 (@declarations_extend_the_scope (scripted "/x") Demo.declaring
                   0%nat [] (Demo.start "/x" [])
                   [("a", SInt 1); ("b", SStr "{a}2")] "b" _ _) _).
  - simpl. lia.
  - reflexivity.
  - simpl. tauto.
Defined.

Lemma extracted_variables_verbatim (decls : list (string * scalar)) (user : dict) :
  (forall kx, In kx decls -> plain (py_str (snd kx)) = true) ->
  forall d, extracted_variables decls d user = declared_verbatim decls d.
Proof.
  unfold extracted_variables, declared_verbatim.
  induction decls as [|[k x] decls IH]; intros Hplain d; [reflexivity |].
  cbn [fold_left fst snd].
  rewrite replace_with_variables_plain
    by (apply (Hplain (k, x)); now left).
  apply IH. intros kx Hin. apply Hplain. now right.
Qed.

Lemma declared_verbatim_lookup (decls : list (string * scalar)) :
  NoDup (map fst decls) ->
  forall d kx, In kx decls ->
  dict_get (fst kx) (declared_verbatim decls d) = Some (py_str (snd kx)).
Proof.
  unfold declared_verbatim.
  induction decls as [|[k x] decls IH]; intros Hnd d kx Hin; [destruct Hin |].
  cbn [map fst] in Hnd. apply NoDup_cons in Hnd as [Hfresh Hnd].
  cbn [fold_left fst snd]. destruct Hin as [<- | Hin].
  - cbn [fst snd].
    assert (Hrest : forall d0,
      dict_get k (fold_left (fun d kx => dict_set (fst kx) (py_str (snd kx)) d)
                    decls d0) = dict_get k d0).
    { clear -Hfresh. induction decls as [|[k1 x1] decls IH]; intros d0;
        [reflexivity |].
      cbn [fold_left fst snd]. rewrite IH.
      - rewrite dict_get_set.
        destruct (String.eqb_spec k k1) as [-> | _]; [| reflexivity].
        exfalso. apply Hfresh. cbn [map fst]. apply list_elem_of_In. now left.
      - intros Hin. apply Hfresh. cbn [map fst].
        apply list_elem_of_In. right. now apply list_elem_of_In. }
    rewrite Hrest, dict_get_set, String.eqb_refl. reflexivity.
  - now apply IH.
Qed.

Lemma dict_set_same (k v : string) (d : dict) :
  dict_get k d = Some v -> dict_set k v d = d.
Proof.
  induction d as [|[k0 v0] d IH]; cbn [dict_get dict_set]; [discriminate |].
  destruct (String.eqb_spec k k0) as [-> | Hne].
  - intros H. now inversion H.
  - intros H. now rewrite IH.
Qed.

Lemma declared_verbatim_settled (decls : list (string * scalar)) :
  forall d,
  (forall kx, In kx decls -> dict_get (fst kx) d = Some (py_str (snd kx))) ->
  declared_verbatim decls d = d.
Proof.
  unfold declared_verbatim.
  induction decls as [|[k x] decls IH]; intros d H; [reflexivity |].
  cbn [fold_left fst snd].
  rewrite dict_set_same by (apply (H (k, x)); now left).
  apply IH. intros kx Hin. apply H. now right.
Qed.

Section Reextraction.
Context {platform : Platform}.

(** X15: [main] extracts the variables of a project when it examines it,
    and [build] and [test] extract them again.  For a project whose
    declarations have distinct names and templates without an opening
    brace, the second extraction changes nothing: the variables the steps
    are resolved with are those the path was matched with. *)
Theorem extracting_plain_declarations_twice
    (root : node) (variables : loc) (user : dict) (st : state)
    (decls : list (string * scalar)) :
  (variables < length (heap st))%nat ->
  n_variables root = Some decls ->
  NoDup (map fst decls) ->
  (forall kx, In kx decls -> plain (py_str (snd kx)) = true) ->
  extract_variables root variables user
    (snd (extract_variables root variables user st))
  = (Ret variables, snd (extract_variables root variables user st)).
Proof.
  intros Hv Hdecls Hnd Hplain.
  rewrite (extract_variables_in_place root variables user st) by exact Hv.
  rewrite Hdecls. cbn [snd].
  rewrite extract_variables_in_place by (rewrite length_with_dict; exact Hv).
  rewrite Hdecls, deref_with_dict by exact Hv.
  rewrite with_dict_twice. do 2 f_equal.
  rewrite !extracted_variables_verbatim by exact Hplain.
  apply declared_verbatim_settled.
  intros kx Hin. now apply declared_verbatim_lookup.
Qed.

End Reextraction.

Lemma extracting_plain_declarations_twice_witness :
  extract_variables Demo.elsewhere 0%nat []
    (snd (extract_variables Demo.elsewhere 0%nat [] (Demo.start "/x" [])))
  = (Ret 0%nat,
     snd (extract_variables Demo.elsewhere 0%nat [] (Demo.start "/x" []))).
Proof.
  apply (@extracting_plain_declarations_twice (scripted "/x") Demo.elsewhere
           0%nat [] (Demo.start "/x" []) [("leak", SStr "L")]).
  - simpl. lia.
  - reflexivity.
  - repeat constructor. rewrite list_elem_of_In. cbn. tauto.
  - intros kx [<- | []]. reflexivity.
Defined.

(** ** Further properties: the user variables *)

Lemma split_eq_found (k v : string) :
  has_eq k = false -> split_eq (k +:+ "=" +:+ v) = (k, Some v).
Proof.
  unfold has_eq. induction k as [|c k IH]; intros H; [reflexivity |].
  cbn [list_ascii_of_string existsb] in H.
  apply orb_false_iff in H as [Hc Hk].
  specialize (IH Hk). cbn [String.append split_eq] in *.
  rewrite Ascii.eqb_sym, Hc. now rewrite IH.
Qed.

Lemma split_eq_missing (s : string) :
  has_eq s = false -> split_eq s = (s, None).
Proof.
  unfold has_eq. induction s as [|c s IH]; intros H; [reflexivity |].
  cbn [list_ascii_of_string existsb] in H.
  apply orb_false_iff in H as [Hc Hs].
  cbn [split_eq]. rewrite Ascii.eqb_sym, Hc. now rewrite (IH Hs).
Qed.

Lemma user_variables_of_app (vs ws : list string) :
  forall d,
  user_variables_of (vs ++ ws) d
  = match user_variables_of vs d with
    | Some d' => user_variables_of ws d'
    | None => None
    end.
Proof.
  induction vs as [|v vs IH]; intros d; [reflexivity |].
  cbn [app user_variables_of].
  destruct (split_eq v) as [s0 [s1|]]; [apply IH | reflexivity].
Qed.

Lemma lstrip_all_space (l s : string) :
  all_space l = true -> lstrip (l +:+ s) = lstrip s.
Proof.
  unfold all_space. induction l as [|c l IH]; intros H; [reflexivity |].
  cbn [list_ascii_of_string forallb] in H.
  apply andb_true_iff in H as [Hc Hl].
  cbn [String.append lstrip]. rewrite Hc. exact (IH Hl).
Qed.

Lemma lstrip_bare (s : string) : first_is_space s = false -> lstrip s = s.
Proof. destruct s as [|c s]; cbn; [reflexivity | now intros ->]. Qed.

Lemma rstrip_all_space (r : string) : all_space r = true -> rstrip r = EmptyString.
Proof.
  unfold all_space. induction r as [|c r IH]; intros H; [reflexivity |].
  cbn [list_ascii_of_string forallb] in H.
  apply andb_true_iff in H as [Hc Hr].
  cbn [rstrip]. now rewrite (IH Hr), Hc.
Qed.

Lemma rstrip_behind (core r : string) :
  last_is_space core = false -> all_space r = true ->
  rstrip (core +:+ r) = core.
Proof.
  intros Hlast Hr.
  induction core as [|c core IH]; [now apply rstrip_all_space |].
  cbn [String.append rstrip].
  destruct core as [|c' core].
  - cbn [String.append]. rewrite (rstrip_all_space r Hr).
    cbn [last_is_space] in Hlast. now rewrite Hlast.
  - rewrite IH by exact Hlast. reflexivity.
Qed.

(** What [strip] does: the whitespace around a text that neither starts nor
    ends with whitespace goes, the text stays. *)
Lemma strip_surrounded (l core r : string) :
  all_space l = true -> all_space r = true ->
  first_is_space core = false -> last_is_space core = false ->
  strip (l +:+ core +:+ r) = core.
Proof.
  intros Hl Hr Hfirst Hlast. unfold strip.
  rewrite lstrip_all_space by exact Hl.
  destruct core as [|c core].
  - cbn [String.append].
    replace (lstrip r) with EmptyString; [reflexivity |].
    clear -Hr. unfold all_space in Hr.
    induction r as [|c r IH]; [reflexivity |].
    cbn [list_ascii_of_string forallb] in Hr.
    apply andb_true_iff in Hr as [Hc Hr].
    cbn [lstrip]. rewrite Hc. exact (IH Hr).
  - rewrite lstrip_bare by exact Hfirst.
    now apply rstrip_behind.
Qed.

(** X9: an argument KEY=VALUE is split at its first equals sign, so the
    value may hold further equals signs, and the value is stored without
    the whitespace around it: for a value that is a text, which neither
    starts nor ends with whitespace, between two stretches of whitespace,
    the text is what is stored.  It is stored on top of what the arguments
    before it gave: when the arguments parse, the key has this value in the
    result, whatever an earlier argument gave it. *)
Theorem user_variable_is_split_at_first_equals
    (vs : list string) (k l core r : string) (d : dict) :
  has_eq k = false ->
  all_space l = true ->
  all_space r = true ->
  first_is_space core = false ->
  last_is_space core = false ->
  user_variables_of (vs ++ [k +:+ "=" +:+ l +:+ core +:+ r]) d
    = option_map (dict_set k core) (user_variables_of vs d)
  /\ forall res,
       user_variables_of (vs ++ [k +:+ "=" +:+ l +:+ core +:+ r]) d = Some res ->
       dict_get k res = Some core.
Proof.
  intros Hk Hl Hr Hfirst Hlast.
  assert (Heq : user_variables_of (vs ++ [k +:+ "=" +:+ l +:+ core +:+ r]) d
                = option_map (dict_set k core) (user_variables_of vs d)).
  { rewrite user_variables_of_app.
    destruct (user_variables_of vs d) as [d'|]; [| reflexivity].
    pose proof (split_eq_found k (l +:+ core +:+ r) Hk) as Hsp.
    unfold user_variables_of. rewrite Hsp.
    now rewrite strip_surrounded. }
  split; [exact Heq |].
  intros res Hres. rewrite Heq in Hres.
  destruct (user_variables_of vs d) as [d'|]; [| discriminate].
  cbn [option_map] in Hres. inversion Hres; subst.
  rewrite dict_get_set, String.eqb_refl. reflexivity.
Qed.

(** A value with an equals sign and a blank inside, behind a blank and a
    no-break space and before a next-line character and a tab. *)
Lemma user_variable_is_split_at_first_equals_witness :
  user_variables_of
    (["flags=-O0"]
       ++ ["flags" +:+ "=" +:+ String " " (String "160" EmptyString)
             +:+ "-DX=1 -g" +:+ String "133" (String "009" EmptyString)]) []
  = Some [("flags", "-DX=1 -g")].
Proof.
  refine (proj1 (user_variable_is_split_at_first_equals
                   ["flags=-O0"] "flags"
                   (String " " (String "160" EmptyString)) "-DX=1 -g"
                   (String "133" (String "009" EmptyString)) [] _ _ _ _ _)).
  - reflexivity.
  - reflexivity.
  - reflexivity.
  - reflexivity.
  - reflexivity.
Defined.

Lemma user_variables_of_malformed (vs : list string) (s : string) :
  In s vs -> has_eq s = false -> forall d, user_variables_of vs d = None.
Proof.
  induction vs as [|v vs IH]; intros Hin Hs d; [destruct Hin |].
  cbn [user_variables_of]. destruct Hin as [-> | Hin].
  - now rewrite split_eq_missing.
  - destruct (split_eq v) as [s0 [s1|]]; [now apply IH | reflexivity].
Qed.

Section MalformedArgument.
Context {platform : Platform}.

(** X10: when one of the variable arguments holds no equals sign, the run
    ends with the uncaught IndexError before anything is printed, allocated
    or executed, whatever the configuration holds. *)
Theorem variable_without_equals_crashes
    (args : arguments) (config : config) (st : state)
    (vs : list string) (s : string) :
  a_variable args = Some vs ->
  In s vs ->
  has_eq s = false ->
  main args config st = (Raise "IndexError", st).
Proof.
  intros Hvs Hin Hs. unfold main. rewrite Hvs.
  destruct vs as [|v vs]; [destruct Hin |].
  rewrite (user_variables_of_malformed (v :: vs) s Hin Hs).
  reflexivity.
Qed.

End MalformedArgument.

Lemma variable_without_equals_crashes_witness :
  @main (scripted "/x") (Args false true (Some ["a=1"; "oops"]) "fedora" "Release")
    (Config (Node None None None None None) (Some [("two", Demo.first)]))
    (@initial (scripted "/x") [])
  = (Raise "IndexError", @initial (scripted "/x") []).
Proof.
  apply (@variable_without_equals_crashes (scripted "/x")
           (Args false true (Some ["a=1"; "oops"]) "fedora" "Release")
           (Config (Node None None None None None) (Some [("two", Demo.first)]))
           (@initial (scripted "/x") []) ["a=1"; "oops"] "oops").
  - reflexivity.
  - simpl. tauto.
  - reflexivity.
Defined.

(** ** Further properties: step lists and banners *)

Lemma copy_by_append {A} (xs : list A) :
  forall acc, fold_left (fun steps x => steps ++ [x]) xs acc = acc ++ xs.
Proof.
  induction xs as [|x xs IH]; intros acc; cbn [fold_left].
  - now rewrite app_nil_r.
  - rewrite IH. now rewrite <- app_assoc.
Qed.

(** X13: [get_build_steps] and [get_test_steps] return the steps under the
    key, in order, and the empty list when the key is absent. *)
Theorem step_getters_copy_the_list (root : node) :
  get_build_steps root
    = match n_build root with Some steps => steps | None => [] end
  /\ get_test_steps root
    = match n_test root with Some steps => steps | None => [] end.
Proof.
  unfold get_build_steps, get_test_steps.
  destruct (n_build root), (n_test root);
    rewrite ?copy_by_append; split; reflexivity.
Qed.

Lemma length_append (s t : string) :
  String.length (s +:+ t) = (String.length s + String.length t)%nat.
Proof. induction s as [|c s IH]; cbn; [reflexivity | now rewrite IH]. Qed.

(** X14: the banner of a step is never longer than 372 characters: its
    length is 42 plus three times the length of the title, of which at most
    110 characters are kept. *)
Theorem banner_length_bounded (text : string) :
  String.length (banner text)
    = (42 + 3 * Nat.min 110 (String.length text))%nat
  /\ (String.length (banner text) <= 372)%nat.
Proof.
  assert (Hlen : String.length (banner text)
                 = (42 + 3 * Nat.min 110 (String.length text))%nat).
  { unfold banner. rewrite banner_truncation.
    unfold PyStr.chars. rewrite join_hashes, length_chars.
    rewrite !length_append, length_hashes, length_first_chars.
    cbn [String.length]. lia. }
  split; [exact Hlen | rewrite Hlen; lia].
Qed.

(** ** Further properties: the command line of a phase *)

Lemma pipeline_from (steps : list string) (d user : dict) :
  forall cmd, cmd <> [] ->
  pipeline steps d user cmd
  = cmd ++ flat_map (fun y => ["&&"; y]) (resolved_steps steps d user).
Proof.
  induction steps as [|step steps IH]; intros cmd Hcmd.
  - cbn. now rewrite app_nil_r.
  - cbn [pipeline resolved_steps flat_map].
    destruct cmd as [|c cmd]; [congruence |].
    cbn [length Nat.ltb Nat.leb].
    rewrite IH by (destruct cmd; discriminate).
    cbn [app flat_map]. rewrite <- !app_assoc. reflexivity.
Qed.

Lemma pipeline_chain (steps : list string) (d user : dict) :
  pipeline steps d user []
  = match resolved_steps steps d user with
    | [] => []
    | x :: l => x :: flat_map (fun y => ["&&"; y]) l
    end.
Proof.
  destruct steps as [|step steps]; [reflexivity |].
  cbn [pipeline resolved_steps flat_map length Nat.ltb Nat.leb app].
  rewrite pipeline_from by discriminate. reflexivity.
Qed.

Lemma join_chain (l : list string) :
  forall x,
  PyStr.join " " (x :: flat_map (fun y => ["&&"; y]) l) = PyStr.join " && " (x :: l).
Proof.
  unfold PyStr.join.
  induction l as [|y l IH]; intros x; [reflexivity |].
  cbn [flat_map app].
  change (String.concat " " (x :: "&&" :: y :: flat_map (fun y => ["&&"; y]) l))
    with (x +:+ " " +:+ "&&" +:+ " "
            +:+ String.concat " " (y :: flat_map (fun y => ["&&"; y]) l)).
  rewrite IH. reflexivity.
Qed.

(** The command line of a list of steps. *)
Lemma command_line_chain (steps : list string) (d user : dict) :
  PyStr.join " " (pipeline steps d user [])
  = PyStr.join " && " (resolved_steps steps d user).
Proof.
  rewrite pipeline_chain.
  destruct (resolved_steps steps d user) as [|x l]; [reflexivity |].
  apply join_chain.
Qed.

Section Phases.
Context {platform : Platform}.

Lemma test_runs (project : node) (path : string) (variables environment : loc)
    (user : dict) (st : state) (steps : list string) :
  n_test project = Some steps ->
  test project path variables environment user st
  = execute_command
      (PyStr.join " "
         (pipeline steps
            (deref variables (prepared project variables environment user st))
            user []))
      path environment (prepared project variables environment user st).
Proof.
  intros Hsteps. unfold test, prepared. rewrite Hsteps.
  unfold bind at 1.
  destruct (extract_variables_returns project variables user st)
    as (st1 & -> & _ & _).
  cbn [snd]. unfold bind at 1.
  destruct (extract_environment_returns project environment variables user st1)
    as (st2 & -> & _ & _).
  cbn [snd]. unfold bind at 1. rewrite assemble_pipeline. reflexivity.
Qed.

(** X2: a phase whose key is present runs exactly one command, in the
    matched directory, after extracting the project's variables and
    environment once more.  Its command line chains, for each step in
    order, the banner of the step and the step, both with the variables
    substituted, all joined by the shell's and-operator; [test] does with
    the test steps what [build] does with the build steps. *)
Theorem phase_command_chains_banners_and_steps
    (path_key : option string) (vs es : option (list (string * scalar)))
    (other : option (list string)) (steps : list string) (path : string)
    (variables environment : loc) (user : dict) (st : state) :
  build (Node path_key vs es (Some steps) other) path variables environment user st
    = execute_command
        (PyStr.join " && "
           (resolved_steps steps
              (deref variables
                 (prepared (Node path_key vs es (Some steps) other)
                    variables environment user st))
              user))
        path environment
        (prepared (Node path_key vs es (Some steps) other)
           variables environment user st)
  /\ test (Node path_key vs es other (Some steps)) path variables environment user st
    = execute_command
        (PyStr.join " && "
           (resolved_steps steps
              (deref variables
                 (prepared (Node path_key vs es other (Some steps))
                    variables environment user st))
              user))
        path environment
        (prepared (Node path_key vs es other (Some steps))
           variables environment user st).
Proof.
  split.
  - rewrite (build_runs (Node path_key vs es (Some steps) other) path variables
               environment user st steps eq_refl).
    now rewrite command_line_chain.
  - rewrite (test_runs (Node path_key vs es other (Some steps)) path variables
               environment user st steps eq_refl).
    now rewrite command_line_chain.
Qed.

Lemma execute_command_success (cmd cwd : string) (environment : loc) (st : state) :
  fst (subprocess_call cmd cwd (dict_merge environ (deref environment st)) (world st))
    = 0 ->
  execute_command cmd cwd environment st
  = (Ret tt, succeeded cmd cwd environment st).
Proof.
  intros Hrc. unfold execute_command, succeeded, bind, print, emit, load, call.
  cbn [heap output world].
  destruct (subprocess_call cmd cwd _ (world st)) as [rc w]. cbn [fst snd] in *.
  subst rc. cbn [Z.eqb negb]. unfold ret.
  now rewrite <- app_assoc.
Qed.

End Phases.

(** ** Further properties: whole runs *)

Section Runs.
Context {platform : Platform}.

(** X5: when the selected project has nothing to run (the build is
    switched off or the project has no build key, and the test is not
    asked for or the project has no test key), the run ends normally
    without printing or executing anything. *)
Theorem nothing_to_run_is_success
    (args : arguments) (variables environment : loc) (user : dict)
    (pre post : list (string * node)) (p : string) (project : node)
    (st st1 st2 : state) (path : string) :
  rejected variables user pre st st1 ->
  examine project variables user st1 = (Ret (Some path), st2) ->
  path <> EmptyString ->
  a_no_build args = true \/ n_build project = None ->
  a_test args = false \/ n_test project = None ->
  run_projects args (pre ++ (p, project) :: post) variables environment user st
    = (Ret tt, st2)
  /\ output st2 = output st
  /\ world st2 = world st.
Proof.
  intros Hpre Hex Hpath Hbuild Htest.
  rewrite (run_projects_rejected args variables environment user pre _ st st1 Hpre).
  rewrite run_projects_cons, Hex.
  destruct path as [|c path]; [now destruct Hpath |]. cbn [truthy].
  assert (Hb : (if negb (a_no_build args)
                then build project (String c path) variables environment user
                else ret tt) st2 = (Ret tt, st2)).
  { destruct Hbuild as [-> | Hb]; [reflexivity |].
    destruct (negb (a_no_build args)); [| reflexivity].
    unfold build. now rewrite Hb. }
  assert (Ht : (if a_test args
                then test project (String c path) variables environment user
                else ret tt) st2 = (Ret tt, st2)).
  { destruct Htest as [-> | Ht]; [reflexivity |].
    destruct (a_test args); [| reflexivity].
    unfold test. now rewrite Ht. }
  split.
  - unfold handle. unfold bind at 1. rewrite Hb.
    unfold bind at 1. now rewrite Ht.
  - apply rejected_quiet in Hpre as [Ho Hw].
    apply examine_quiet in Hex as [Ho' Hw']. split; congruence.
Qed.

(** X6: with the build on and the test asked for, a project that has both
    keys and whose build command returns zero has its test command run
    next, from the state the build left and after one more extraction; the
    run ends as that command ends.  The output is the build command echoed
    and run, then the test command echoed and run, then at most the error
    of the test. *)
Theorem build_then_test
    (args : arguments) (project : node) (path : string)
    (variables environment : loc) (user : dict) (st : state)
    (bs ts : list string) :
  a_no_build args = false ->
  a_test args = true ->
  n_build project = Some bs ->
  n_test project = Some ts ->
  let st1 := prepared project variables environment user st in
  let c1 := PyStr.join " " (pipeline bs (deref variables st1) user []) in
  fst (subprocess_call c1 path (dict_merge environ (deref environment st1))
         (world st1)) = 0 ->
  let st2 :=
    prepared project variables environment user
      (succeeded c1 path environment st1) in
  let c2 := PyStr.join " " (pipeline ts (deref variables st2) user []) in
  handle args project path variables environment user st
    = execute_command c2 path environment st2
  /\ exists tail,
      output (snd (handle args project path variables environment user st))
      = output st
          ++ [Stdout c1;
              Call c1 path (dict_merge environ (deref environment st1));
              Stdout c2;
              Call c2 path (dict_merge environ (deref environment st2))]
          ++ tail.
Proof.
  intros Hbuild Htest Hbs Hts st1 c1 Hrc st2 c2.
  assert (Hhandle : handle args project path variables environment user st
                    = execute_command c2 path environment st2).
  { unfold handle. rewrite Hbuild, Htest. cbn [negb].
    unfold bind at 1. rewrite (build_runs _ _ _ _ _ _ bs Hbs).
    fold st1. fold c1. rewrite (execute_command_success _ _ _ _ Hrc).
    unfold bind at 1. rewrite (test_runs _ _ _ _ _ _ ts Hts).
    fold st2. fold c2.
    destruct (execute_command c2 path environment st2) as [[[]|code|exn] s];
      reflexivity. }
  split; [exact Hhandle |].
  rewrite Hhandle.
  destruct (execute_command_output c2 path environment st2) as [tail Htail].
  exists tail. rewrite Htail.
  destruct (prepared_quiet project variables environment user
              (succeeded c1 path environment st1)) as [Ho2 _].
  destruct (prepared_quiet project variables environment user st) as [Ho1 _].
  fold st2 in Ho2. fold st1 in Ho1. rewrite Ho2.
  unfold succeeded. cbn [output]. rewrite Ho1.
  now rewrite <- !app_assoc.
Qed.

(** X7: a project without a path key that the loop reaches ends the run:
    exit status 1 and the message that names the node on standard error.
    The projects after it are not examined, even if one of them would
    match, and no command is run. *)
Theorem missing_path_ends_the_run
    (args : arguments) (variables environment : loc) (user : dict)
    (pre post : list (string * node)) (p : string) (project : node)
    (st st1 : state) :
  rejected variables user pre st st1 ->
  n_path project = None ->
  exists st2,
    run_projects args (pre ++ (p, project) :: post) variables environment user st
      = (Exit 1, st2)
    /\ output st2 = output st ++ [Stderr ("ERROR: No path in " +:+ str_node project)]
    /\ world st2 = world st.
Proof.
  intros Hpre Hpath.
  rewrite (run_projects_rejected args variables environment user pre _ st st1 Hpre).
  rewrite run_projects_cons. unfold examine. unfold bind at 1.
  destruct (extract_variables_returns project variables user st1)
    as (st0 & -> & Ho & Hw).
  unfold get_path. rewrite Hpath. unfold error.
  eexists. split; [reflexivity |].
  apply rejected_quiet in Hpre as [Ho' Hw'].
  cbn [output world]. split; [now rewrite Ho, Ho' | now rewrite Hw, Hw'].
Qed.

Lemma deref_last (h : list dict) (d : dict) (o : list event) (w : World) :
  deref (length h) (State (h ++ [d]) o w) = d.
Proof.
  unfold deref. cbn [heap].
  now rewrite list_lookup_middle.
Qed.

Lemma with_dict_last (h : list dict) (d d' : dict) (o : list event) (w : World) :
  with_dict (length h) d' (State (h ++ [d]) o w) = State (h ++ [d']) o w.
Proof.
  unfold with_dict. cbn [heap output world]. f_equal.
  replace (length h) with (length h + 0)%nat at 1 by lia.
  now rewrite insert_app_r.
Qed.

(** [d[k] = v] on the object allocated last. *)
Lemma assign_last (h : list dict) (d : dict) (o : list event) (w : World)
    (k v : string) :
  bind (load (length h)) (fun d => store (length h) (dict_set k v d))
    (State (h ++ [d]) o w)
  = (Ret tt, State (h ++ [dict_set k v d]) o w).
Proof.
  unfold bind, load, store. rewrite deref_last.
  change (State (<[length h := dict_set k v d]> (heap (State (h ++ [d]) o w)))
            (output (State (h ++ [d]) o w)) (world (State (h ++ [d]) o w)))
    with (with_dict (length h) (dict_set k v d) (State (h ++ [d]) o w)).
  now rewrite with_dict_last.
Qed.

(** What [main] has done when it reaches the projects. *)
Lemma main_setup (args : arguments) (config : config) (user : dict) (st : state) :
  parsed_user_variables args = Some user ->
  main args config st
  = match c_projects config with
    | Some projects =>
        run_projects args projects (length (heap st)) (S (length (heap st))) user
          (State (heap st ++ [global_variables args config user;
                              global_environment args config user])
                 (output st) (world st))
    | None =>
        (Raise "KeyError",
         State (heap st ++ [global_variables args config user;
                            global_environment args config user])
               (output st) (world st))
    end.
Proof.
  intros Hparsed. unfold main.
  assert (Huser :
    match a_variable args with
    | Some (v :: vs) =>
        match user_variables_of (v :: vs) [] with
        | Some d => ret d
        | None => raise "IndexError"
        end
    | _ => ret []
    end = ret user).
  { unfold parsed_user_variables in Hparsed.
    destruct (a_variable args) as [[|v vs]|].
    - now inversion Hparsed.
    - now rewrite Hparsed.
    - now inversion Hparsed. }
  rewrite Huser. clear Huser.
  destruct st as [h o w]. cbn [heap output world].
  unfold bind at 1. unfold ret at 1.
  unfold bind at 1. unfold new_dict at 1. cbn [heap output world].
  unfold bind at 1. rewrite assign_last.
  unfold bind at 1. rewrite assign_last.
  change (dict_set "bt" (a_build_type args) (dict_set "os" (a_operating_system args) []))
    with [("os", a_operating_system args); ("bt", a_build_type args)].
  unfold bind at 1.
  rewrite extract_variables_in_place
    by (cbn [heap]; rewrite length_app; cbn; lia).
  rewrite deref_last.
  assert (Hvars :
    match n_variables (c_root config) with
    | Some decls =>
        with_dict (length h)
          (extracted_variables decls
             [("os", a_operating_system args); ("bt", a_build_type args)] user)
          (State (h ++ [[("os", a_operating_system args);
                         ("bt", a_build_type args)]]) o w)
    | None =>
        State (h ++ [[("os", a_operating_system args);
                      ("bt", a_build_type args)]]) o w
    end = State (h ++ [global_variables args config user]) o w).
  { unfold global_variables.
    destruct (n_variables (c_root config));
      [apply with_dict_last | reflexivity]. }
  rewrite Hvars. clear Hvars.
  unfold bind at 1. unfold new_dict at 1. cbn [heap output world].
  unfold bind at 1.
  set (gv := global_variables args config user).
  assert (Henv :
    extract_environment (c_root config) (length (h ++ [gv])) (length h) user
      (State ((h ++ [gv]) ++ [[]]) o w)
    = (Ret (length (h ++ [gv])),
       State ((h ++ [gv]) ++ [global_environment args config user]) o w)).
  { unfold extract_environment, global_environment. fold gv.
    destruct (n_environment (c_root config)) as [decls|]; [| reflexivity].
    unfold bind at 1.
    rewrite extract_environment_loop.
    - rewrite deref_last.
      replace (deref (length h) (State ((h ++ [gv]) ++ [[]]) o w)) with gv.
      + now rewrite with_dict_last.
      + unfold deref. cbn [heap]. rewrite <- app_assoc. cbn [app].
        now rewrite list_lookup_middle.
    - rewrite length_app. cbn. lia.
    - cbn [heap]. rewrite !length_app. cbn. lia. }
  rewrite Henv. clear Henv.
  replace (length (h ++ [gv])) with (S (length h))
    by (rewrite length_app; cbn; lia).
  rewrite <- app_assoc. cbn [app].
  destruct (c_projects config); reflexivity.
Qed.

(** X12: once the user variables are parsed, [main] is the loop over the
    projects, entered with two new dictionaries: the variables, which hold
    os and bt followed by the global declarations, and the environment,
    which holds the global environment resolved against those variables.
    Nothing has been printed or executed before the loop. *)
Theorem main_enters_the_loop
    (args : arguments) (config : config) (user : dict) (st : state)
    (projects : list (string * node)) :
  parsed_user_variables args = Some user ->
  c_projects config = Some projects ->
  main args config st
  = run_projects args projects (length (heap st)) (S (length (heap st))) user
      (State (heap st ++ [global_variables args config user;
                          global_environment args config user])
             (output st) (world st)).
Proof.
  intros Hparsed Hprojects.
  rewrite (main_setup args config user st Hparsed). now rewrite Hprojects.
Qed.

(** X11: a configuration without the projects key ends the run with the
    uncaught KeyError, after the global variables and environment have been
    computed and before anything is printed or executed. *)
Theorem missing_projects_key_crashes
    (args : arguments) (config : config) (user : dict) (st : state) :
  parsed_user_variables args = Some user ->
  c_projects config = None ->
  main args config st
  = (Raise "KeyError",
     State (heap st ++ [global_variables args config user;
                        global_environment args config user])
           (output st) (world st)).
Proof.
  intros Hparsed Hprojects.
  rewrite (main_setup args config user st Hparsed). now rewrite Hprojects.
Qed.

End Runs.

(** ** The further properties on concrete runs *)

(** With the build switched off and no test asked for, the first project
    that matches /x is selected and nothing is run. *)
Lemma nothing_to_run_is_success_witness :
  run_projects (Args true false None "fedora" "Release")
    ([("one", Demo.elsewhere)] ++ ("two", Demo.first) :: [("three", Demo.second)])
    0%nat 1%nat [] (Demo.start "/x" [])
  = (Ret tt,
     @State (scripted "/x")
            [[("os", "fedora"); ("bt", "Release"); ("leak", "L")]; []] [] []).
Proof.
  refine (proj1 (@nothing_to_run_is_success (scripted "/x")
                   (Args true false None "fedora" "Release") 0%nat 1%nat []
                   [("one", Demo.elsewhere)] [("three", Demo.second)]
                   "two" Demo.first (Demo.start "/x" [])
                   (@State (scripted "/x")
                      [[("os", "fedora"); ("bt", "Release"); ("leak", "L")]; []] [] [])
                   (@State (scripted "/x")
                      [[("os", "fedora"); ("bt", "Release"); ("leak", "L")]; []] [] [])
                   "/x" _ _ _ _ _)).
  - eapply rejected_cons with (path := None);
      [reflexivity | reflexivity | apply rejected_nil].
  - reflexivity.
  - discriminate.
  - left. reflexivity.
  - left. reflexivity.
Defined.

(** The build of the first project returns zero; its test is run next. *)
Lemma build_then_test_witness :
  handle Demo.args Demo.first "/x" 0%nat 1%nat [] (Demo.start "/x" [])
  = execute_command (banner "ctest" +:+ " && ctest") "/x" 1%nat
      (@State (scripted "/x") [[("os", "fedora"); ("bt", "Release")]; []]
         [Stdout (banner "make" +:+ " && make");
          Call (banner "make" +:+ " && make") "/x" [("HOME", "/home/user")]]
         []).
Proof.
  refine (proj1 (@build_then_test (scripted "/x") Demo.args Demo.first "/x"
                   0%nat 1%nat [] (Demo.start "/x" []) ["make"] ["ctest"]
                   _ _ _ _ _)).
  - reflexivity.
  - reflexivity.
  - reflexivity.
  - reflexivity.
  - reflexivity.
Defined.

(** A project without a path key, reached after a rejected one. *)
Lemma missing_path_ends_the_run_witness :
  exists st2,
    run_projects Demo.args
      ([("one", Demo.elsewhere)]
         ++ ("bad", Node None None None (Some ["x"]) None) :: [("two", Demo.first)])
      0%nat 1%nat [] (Demo.start "/x" [])
    = (Exit 1, st2)
    /\ output st2 = [] ++ [Stderr ("ERROR: No path in " +:+ "{...}")]
    /\ world st2 = [].
Proof.
  refine (@missing_path_ends_the_run (scripted "/x") Demo.args 0%nat 1%nat []
            [("one", Demo.elsewhere)] [("two", Demo.first)] "bad"
            (Node None None None (Some ["x"]) None) (Demo.start "/x" [])
            (@State (scripted "/x")
               [[("os", "fedora"); ("bt", "Release"); ("leak", "L")]; []] [] [])
            _ _).
  - eapply rejected_cons with (path := None);
      [reflexivity | reflexivity | apply rejected_nil].
  - reflexivity.
Defined.

(** A configuration with global declarations: the loop is entered with the
    variables os, bt, a and b and the environment E. *)
Lemma main_enters_the_loop_witness :
  @main (scripted "/x") Demo.args
    (Config Demo.declaring (Some [("two", Demo.first)]))
    (@initial (scripted "/x") [])
  = run_projects Demo.args [("two", Demo.first)] 0%nat 1%nat []
      (@State (scripted "/x")
         [[("os", "fedora"); ("bt", "Release"); ("a", "1"); ("b", "12")];
          [("E", "12")]]
         [] []).
Proof.
  refine (@main_enters_the_loop (scripted "/x") Demo.args
            (Config Demo.declaring (Some [("two", Demo.first)])) []
            (@initial (scripted "/x") []) [("two", Demo.first)] _ _).
  - reflexivity.
  - reflexivity.
Defined.

(** The same configuration without its projects. *)
Lemma missing_projects_key_crashes_witness :
  @main (scripted "/x") Demo.args (Config Demo.declaring None)
    (@initial (scripted "/x") [])
  = (Raise "KeyError",
     @State (scripted "/x")
        [[("os", "fedora"); ("bt", "Release"); ("a", "1"); ("b", "12")];
         [("E", "12")]]
        [] []).
Proof.
  refine (@missing_projects_key_crashes (scripted "/x") Demo.args
            (Config Demo.declaring None) [] (@initial (scripted "/x") []) _ _).
  - reflexivity.
  - reflexivity.
Defined.

(** ** Further properties: scopes during the loop *)

Lemma assigned_lookup (f : string * scalar -> string)
    (decls : list (string * scalar)) (k : string) :
  forall d,
  ~ In k (map fst decls) ->
  dict_get k (fold_left (fun d kx => dict_set (fst kx) (f kx) d) decls d)
  = dict_get k d.
Proof.
  induction decls as [|[k1 x1] decls IH]; intros d Hnot; [reflexivity |].
  cbn [fold_left fst snd]. cbn [map fst In] in Hnot.
  rewrite IH by tauto. rewrite dict_get_set.
  destruct (String.eqb_spec k k1) as [-> | _]; [tauto | reflexivity].
Qed.

Lemma assigned_value (f : string * scalar -> string)
    (decls : list (string * scalar)) :
  NoDup (map fst decls) ->
  forall d kx, In kx decls ->
  dict_get (fst kx) (fold_left (fun d kx => dict_set (fst kx) (f kx) d) decls d)
  = Some (f kx).
Proof.
  induction decls as [|[k x] decls IH]; intros Hnd d kx Hin; [destruct Hin |].
  cbn [map fst] in Hnd. apply NoDup_cons in Hnd as [Hfresh Hnd].
  cbn [fold_left fst snd]. destruct Hin as [<- | Hin].
  - cbn [fst]. rewrite assigned_lookup
      by (intros Hk; apply Hfresh; now apply list_elem_of_In).
    now rewrite dict_get_set, String.eqb_refl.
  - now apply IH.
Qed.

Section Scopes.
Context {platform : Platform}.

Lemma examine_variables (project : node) (variables : loc) (user : dict)
    (st st1 : state) (path : option string) :
  (variables < length (heap st))%nat ->
  examine project variables user st = (Ret path, st1) ->
  deref variables st1
  = match n_variables project with
    | Some decls => extracted_variables decls (deref variables st) user
    | None => deref variables st
    end.
Proof.
  intros Hv. unfold examine, bind.
  rewrite extract_variables_in_place by exact Hv.
  destruct (get_path project variables user _) as [[r|code|exn] st2] eqn:Hg;
    try discriminate.
  apply get_path_returns in Hg. intros H. inversion H; subst.
  destruct (n_variables project) as [decls|]; [| reflexivity].
  now apply deref_with_dict.
Qed.

(** X16: during the loop over the projects the variables only grow.  A
    variable that is defined when the loop reaches a project is still
    defined after every project that is examined and rejected, and so is
    every variable that one of those projects declares. *)
Theorem scope_only_grows
    (variables : loc) (user : dict) (projects : list (string * node))
    (st st' : state) (k : string) :
  (variables < length (heap st))%nat ->
  rejected variables user projects st st' ->
  (dict_get k (deref variables st) <> None ->
   dict_get k (deref variables st') <> None)
  /\ (forall p project decls,
        In (p, project) projects ->
        n_variables project = Some decls ->
        In k (map fst decls) ->
        dict_get k (deref variables st') <> None).
Proof.
  intros Hv Hrej. revert Hv.
  induction Hrej as [st | p project rest st path st1 st2 Hex Hfalse Hrej IH];
    intros Hv.
  - split; [tauto | intros p project decls []].
  - pose proof (examine_variables _ _ _ _ _ _ Hv Hex) as Hd1.
    destruct (examine_frame _ _ _ _ _ _ Hv Hex) as [Hlen _].
    destruct IH as [IHkeep IHdecl]; [lia |].
    split.
    + intros Hdef. apply IHkeep. rewrite Hd1.
      destruct (n_variables project) as [decls|]; [| exact Hdef].
      exact (proj2 (proj2 (extracted_variables_lookup decls user k _)) Hdef).
    + intros p0 project0 decls0 [Heq | Hin] Hdecls Hk.
      * inversion Heq; subst. apply IHkeep. rewrite Hd1, Hdecls.
        exact (proj1 (extracted_variables_lookup decls0 user k _) Hk).
      * now apply (IHdecl p0 project0 decls0).
Qed.

(** X17: a pattern that [re.compile] refuses ends the run with the
    uncaught exception when the loop reaches its project; the projects
    after it are not examined and nothing is printed or executed. *)
Theorem invalid_pattern_ends_the_run
    (args : arguments) (variables environment : loc) (user : dict)
    (pre post : list (string * node)) (p : string) (project : node)
    (st st1 st2 : state) (pattern : string) :
  rejected variables user pre st st1 ->
  extract_variables project variables user st1 = (Ret variables, st2) ->
  n_path project = Some pattern ->
  re_match (expanduser (replace_with_variables pattern (deref variables st2) user))
           getcwd = ReError ->
  run_projects args (pre ++ (p, project) :: post) variables environment user st
    = (Raise "re.error", st2)
  /\ output st2 = output st
  /\ world st2 = world st.
Proof.
  intros Hpre Hvars Hpath Hre.
  rewrite (run_projects_rejected args variables environment user pre _ st st1 Hpre).
  rewrite run_projects_cons. unfold examine. unfold bind at 1. rewrite Hvars.
  unfold get_path. rewrite Hpath. unfold bind, load. rewrite Hre.
  split; [reflexivity |].
  apply rejected_quiet in Hpre as [Ho Hw].
  destruct (extract_variables_returns project variables user st1)
    as (st0 & Heq & Ho' & Hw').
  rewrite Hvars in Heq. inversion Heq; subst.
  split; [now rewrite Ho', Ho | now rewrite Hw', Hw].
Qed.

(** X18: the environment of a node is resolved against the variables
    only.  With distinct names, each declared name gets its template with
    the variables substituted, whatever the environment held and whatever
    the other declarations are, and a name the node does not declare keeps
    its value. *)
Theorem environment_resolves_against_variables
    (root : node) (environment variables : loc) (user : dict) (st : state)
    (decls : list (string * scalar)) :
  (environment < length (heap st))%nat ->
  environment <> variables ->
  n_environment root = Some decls ->
  NoDup (map fst decls) ->
  (forall kx, In kx decls ->
     dict_get (fst kx)
       (deref environment
          (snd (extract_environment root environment variables user st)))
     = Some (replace_with_variables (py_str (snd kx)) (deref variables st) user))
  /\ (forall k, ~ In k (map fst decls) ->
     dict_get k
       (deref environment
          (snd (extract_environment root environment variables user st)))
     = dict_get k (deref environment st)).
Proof.
  intros He Hne Hdecls Hnd.
  assert (Hrun :
    deref environment
      (snd (extract_environment root environment variables user st))
    = extracted_environment decls (deref environment st)
        (deref variables st) user).
  { unfold extract_environment. rewrite Hdecls. unfold bind at 1.
    rewrite extract_environment_loop by assumption.
    cbn [snd]. now apply deref_with_dict. }
  rewrite Hrun. unfold extracted_environment. split.
  - intros kx Hin.
    exact (assigned_value
             (fun kx => replace_with_variables (py_str (snd kx))
                          (deref variables st) user)
             decls Hnd (deref environment st) kx Hin).
  - intros k Hk.
    exact (assigned_lookup
             (fun kx => replace_with_variables (py_str (snd kx))
                          (deref variables st) user)
             decls k (deref environment st) Hk).
Qed.

End Scopes.

(** The variable of the rejected project is defined for the next one. *)
Lemma scope_only_grows_witness :
  dict_get "leak"
    (deref 0%nat
       (@State (scripted "/x")
          [[("os", "fedora"); ("bt", "Release"); ("leak", "L")]; []] [] []))
  <> None.
Proof.
  refine (proj2 (@scope_only_grows (scripted "/x") 0%nat []
                   [("one", Demo.elsewhere)] (Demo.start "/x" [])
                   (@State (scripted "/x")
                      [[("os", "fedora"); ("bt", "Release"); ("leak", "L")]; []] [] [])
                   "leak" _ _)
                "one" Demo.elsewhere [("leak", SStr "L")] _ _ _).
  - simpl. lia.
  - eapply rejected_cons with (path := None);
      [reflexivity | reflexivity | apply rejected_nil].
  - left. reflexivity.
  - reflexivity.
  - left. reflexivity.
Defined.

(** An unbalanced parenthesis as the pattern of the first project. *)
Lemma invalid_pattern_ends_the_run_witness :
  run_projects Demo.args
    ([] ++ ("bad", Node (Some "(") None None (Some ["x"]) None)
        :: [("two", Demo.first)])
    0%nat 1%nat []
    (@State (literal_only "/x") [[("os", "fedora"); ("bt", "Release")]; []] [] [])
  = (Raise "re.error",
     @State (literal_only "/x") [[("os", "fedora"); ("bt", "Release")]; []] [] []).
Proof.
  refine (proj1 (@invalid_pattern_ends_the_run (literal_only "/x") Demo.args
                   0%nat 1%nat [] [] [("two", Demo.first)] "bad"
                   (Node (Some "(") None None (Some ["x"]) None)
                   (@State (literal_only "/x")
                      [[("os", "fedora"); ("bt", "Release")]; []] [] [])
                   (@State (literal_only "/x")
                      [[("os", "fedora"); ("bt", "Release")]; []] [] [])
                   (@State (literal_only "/x")
                      [[("os", "fedora"); ("bt", "Release")]; []] [] [])
                   "(" _ _ _ _)).
  - apply rejected_nil.
  - reflexivity.
  - reflexivity.
  - reflexivity.
Defined.

(** The environment E of the example node, resolved against a variable b. *)
Lemma environment_resolves_against_variables_witness :
  dict_get "E"
    (deref 1%nat
       (snd (extract_environment Demo.declaring 1%nat 0%nat []
               (@State (scripted "/x") [[("b", "12")]; [("E", "old")]] [] []))))
  = Some "12".
Proof.
  refine (proj1 (@environment_resolves_against_variables (scripted "/x")
                   Demo.declaring 1%nat 0%nat []
                   (@State (scripted "/x") [[("b", "12")]; [("E", "old")]] [] [])
                   [("E", SStr "{b}")] _ _ _ _)
                ("E", SStr "{b}") _).
  - simpl. lia.
  - lia.
  - reflexivity.
  - repeat constructor. rewrite list_elem_of_In. cbn. tauto.
  - left. reflexivity.
Defined.

(** ** The selected project *)

Section Selection.
Context {platform : Platform}.






End Selection.

